(** * LKAN: the logger and the generic trainer

    A shallow embedding of [lkan/loggers.py] and [lkan/trainers/base.py].

    - Part I  ([Module Logger]): [flatten_dict], the run-directory search of
      [CustomLogger.folder_structure], the constructor's hyper-parameter
      coercion and [update_hyperparams].  The file system is the finite set
      of paths that exist; a Python dict is an insertion-ordered association
      list with unique keys.  The configuration that the constructor gets is
      an OmegaConf [DictConfig]: its nested configurations are [DictConfig]
      objects, not instances of [dict].
    - Part II ([Module Trainer]): [BaseTrainer.training_step],
      [validation_step] and [fit], in a small monad that threads the
      trainer's mutable fields, records every call made to a collaborator
      (model, optimizer, scheduler, logger) as an event, and propagates
      Python exceptions.
    - Parts III and IV ([Module LoggerSpec], [Module TrainerSpec]): the
      properties of the two, each claim with its number (C1 to C10),
      then further properties of the same code (X1 to X18). *)

From stdpp Require Import base decidable list strings pretty gmap sets.
From Stdlib Require Import ZArith Lia.

Open Scope string_scope.
Open Scope list_scope.
Open Scope Z_scope.

(** * Python dicts

    An insertion-ordered association list; the operations keep keys
    unique. *)

Section Dict.
Context {V : Type}.

(** [d[k] = v]: an existing key keeps its position, a new key goes last. *)
Fixpoint dict_set (d : list (string * V)) (k : string) (v : V) : list (string * V) :=
  match d with
  | [] => [(k, v)]
  | (k', v') :: d' =>
      if String.eqb k' k then (k', v) :: d' else (k', v') :: dict_set d' k v
  end.

(** [d.update(other)] *)
Definition dict_update (d other : list (string * V)) : list (string * V) :=
  fold_left (fun acc kv => dict_set acc (fst kv) (snd kv)) other d.

(** [dict(items)] *)
Definition dict_of_items (items : list (string * V)) : list (string * V) :=
  dict_update [] items.

(** [d.get(k)] *)
Fixpoint dict_get (d : list (string * V)) (k : string) : option V :=
  match d with
  | [] => None
  | (k', v') :: d' => if String.eqb k' k then Some v' else dict_get d' k
  end.
End Dict.

(* ===================================================================== *)
(** * Part I: the logger                                                  *)
(* ===================================================================== *)

Module Logger.

(** ** Python values *)

(** What an OmegaConf [DictConfig] holds under a key: a primitive value or
    a nested [DictConfig], given by its items in order.  Floats, lists,
    interpolations and missing values are not modelled. *)
#[warnings="-register-all"]
Inductive node : Type :=
| NStr (s : string)
| NInt (z : Z)
| NBool (b : bool)
| NNone
| NDict (items : list (string * node)).

(** The values that are not a [dict]: primitive values, and [DictConfig]
    objects, which are not instances of [dict].  [str] of a Python float or
    list is not modelled. *)
Inductive scalar : Type :=
| SStr (s : string)
| SInt (z : Z)
| SBool (b : bool)
| SNone
| SCfg (items : list (string * node)).

(** A value is a leaf or a nested dict, given by its items in order. *)
#[warnings="-register-all"]
Inductive value : Type :=
| Leaf (x : scalar)
| Dict (items : list (string * value)).

Section Repr.

(** Python's [repr] of a [str]: it is not part of this repository, and is
    left open. *)
Variable repr_str : string -> string.

(** [repr] of a node held by a [DictConfig]: that of its value, and for a
    nested [DictConfig] that of the Python dict of its nodes,
    [{k1: v1, k2: v2}]. *)
Fixpoint repr_node (n : node) : string :=
  match n with
  | NStr s => repr_str s
  | NInt z => pretty z
  | NBool true => "True"
  | NBool false => "False"
  | NNone => "None"
  | NDict items =>
      "{" +:+
      (fix entries (its : list (string * node)) : string :=
         match its with
         | [] => ""
         | (k, v) :: rest =>
             repr_str k +:+ ": " +:+ repr_node v +:+
             match rest with
             | [] => ""
             | _ :: _ => ", " +:+ entries rest
             end
         end) items
      +:+ "}"
  end.

(** Python's [str(v)] on values that are not a [dict]; [str] of a
    [DictConfig] is its [repr]. *)
Definition py_str (x : scalar) : string :=
  match x with
  | SStr s => s
  | SInt z => pretty z
  | SBool true => "True"
  | SBool false => "False"
  | SNone => "None"
  | SCfg items => repr_node (NDict items)
  end.

(** [isinstance(v, str)] *)
Definition is_str (v : value) : bool :=
  match v with
  | Leaf (SStr _) => true
  | _ => false
  end.


(** ** [flatten_dict] *)

(** [f"{parent_key}{sep}{k}" if parent_key else k] *)
Definition new_key (parent_key sep k : string) : string :=
  match parent_key with
  | EmptyString => k
  | _ => parent_key +:+ sep +:+ k
  end.

(** The items that one entry [(key, v)] of the loop of [flatten_dict]
    contributes: [(key, v)] itself when [v] is not a dict, and otherwise the
    items of [flatten_dict(v, key, sep)], which is the [items] list built by
    the loop over [v], then [dict(items)]. *)
Fixpoint flatten_value (v : value) (parent_key sep : string)
  : list (string * scalar) :=
  match v with
  | Leaf x => [(parent_key, x)]
  | Dict d =>
      dict_of_items
        ((fix loop (its : list (string * value)) : list (string * scalar) :=
            match its with
            | [] => []
            | (k, v') :: rest =>
                flatten_value v' (new_key parent_key sep k) sep ++ loop rest
            end) d)
  end.

Definition flatten_dict (d : list (string * value)) (parent_key sep : string)
  : list (string * scalar) :=
  flatten_value (Dict d) parent_key sep.

(** Lines 35-37 of the constructor: every value that is not a [str] is
    replaced by its [str]. *)
Definition coerce_hparams (h : list (string * scalar)) : list (string * value) :=
  map (fun kv => (fst kv, Leaf (SStr (py_str (snd kv))))) h.

(** The value that [cfg.items()] gives for a node of a [DictConfig]: a
    primitive value, or the nested [DictConfig] itself. *)
Definition node_value (n : node) : scalar :=
  match n with
  | NStr s => SStr s
  | NInt z => SInt z
  | NBool b => SBool b
  | NNone => SNone
  | NDict items => SCfg items
  end.

(** [cfg.items()] of a [DictConfig]: no value is a [dict]. *)
Definition config_items (cfg : list (string * node)) : list (string * value) :=
  map (fun kv => (fst kv, Leaf (node_value (snd kv)))) cfg.

(** Lines 33-39 of the constructor: [flatten_dict(cfg)] of the
    [DictConfig], with the default separator, then the coercion. *)
Definition init_hparams (cfg : list (string * node)) : list (string * value) :=
  coerce_hparams (flatten_dict (config_items cfg) "" "/").

(** ** The file system and [folder_structure] *)

(** The paths that exist ([os.path.exists]). *)
Definition fs := gset string.

Definition run_dir (save_dir : string) (i : nat) : string :=
  save_dir +:+ "/run" +:+ pretty i.

(** The [while os.path.exists(new_save_dir)] loop; [n] bounds the number of
    tests of the condition. *)
Fixpoint find_free (n : nat) (files : fs) (save_dir new_save_dir : string)
  (i : nat) : option string :=
  match n with
  | O => None
  | S n' =>
      if decide (new_save_dir ∈ files)
      then find_free n' files save_dir (run_dir save_dir i) (S i)
      else Some new_save_dir
  end.

(** A set of [size files] paths cannot hold more than [size files] run
    directories, so [S (size files)] tests suffice (see
    [next_run_dir_first]). *)
Definition next_run_dir (files : fs) (save_dir : string) : option string :=
  find_free (S (size files)) files save_dir (save_dir +:+ "/run0") 1.


(** [os.makedirs] of the run directory and its checkpoints directory, and
    the saved configuration. *)
Definition create_run (files : fs) (save_dir new_save_dir : string) : fs :=
  {[ save_dir; new_save_dir; new_save_dir +:+ "/checkpoints";
     new_save_dir +:+ "/config.yaml" ]} ∪ files.

(** [folder_structure(cfg)], with [cfg.save_dir] passed as [save_dir]:
    the new file system, the run directory, and the updated [cfg]. *)
Definition folder_structure (files : fs) (save_dir : string)
  (cfg : list (string * node))
  : option (fs * string * list (string * node)) :=
  match next_run_dir files save_dir with
  | None => None
  | Some new_save_dir =>
      Some (create_run files save_dir new_save_dir,
            new_save_dir,
            dict_set cfg "save_dir" (NStr new_save_dir))
  end.

(** ** [CustomLogger] *)

Record logger : Type := {
  save_dir : string;
  version : string;
  hparams : list (string * value);
  metrics : list (string * value)
}.

(** [CustomLogger.__init__] *)
Definition init (files : fs) (save_dir0 name version0 : string)
  (cfg : list (string * node)) : option (fs * logger) :=
  let cfg := dict_set cfg "save_dir" (NStr save_dir0) in
  match folder_structure files save_dir0 cfg with
  | None => None
  | Some (files', new_save_dir, cfg') =>
      Some (files',
            {| save_dir := new_save_dir;
               version := version0;
               hparams := init_hparams cfg';
               metrics := [] |})
  end.

End Repr.

(** [CustomLogger.update_hyperparams] *)
Definition update_hyperparams (l : logger)
  (hp ms : list (string * value)) : logger :=
  {| save_dir := save_dir l;
     version := version l;
     hparams := dict_update (hparams l) hp;
     metrics := dict_update (metrics l) ms |}.

(** The checkpoint written by [save_model]. *)
Definition checkpoint_path (l : logger) (step : Z) : string :=
  save_dir l +:+ "/checkpoints/model_" +:+ pretty step +:+ ".pt".

(** The invariant of the hyper-parameter mapping. *)
Definition all_str (d : list (string * value)) : Prop :=
  Forall (fun kv => is_str (snd kv) = true) d.

(** [repr] of a [str] that has no quote, backslash or control character
    in it, as the strings of the examples. *)
Definition quoted (s : string) : string := "'" +:+ s +:+ "'".

(** The logger that the constructor leaves for the configuration
    [{a: {b: 1}}] and the base directory [logs], when no run directory
    exists. *)
Definition logger0 : logger :=
  {| save_dir := "logs/run0"; version := "v0";
     hparams := [("a", Leaf (SStr "{'b': 1}"));
                 ("save_dir", Leaf (SStr "logs/run0"))];
     metrics := [] |}.

(** A configuration without nesting, from its items. *)
Definition flat_cfg (items : list (string * scalar)) : list (string * value) :=
  map (fun kv => (fst kv, Leaf (snd kv))) items.

End Logger.

(* ===================================================================== *)
(** * Part II: the trainer                                                *)
(* ===================================================================== *)

Module Trainer.

(** ** Exceptions *)

(** The four places where the trainer takes a remainder. *)
Inductive mod_site : Type :=
| Accumulate_grad_batches   (* training_step: global_step % accumulate_grad_batches *)
| Lr_step                   (* fit: global_step % lr_step *)
| Save_every_n_steps        (* fit: global_step % save_every_n_steps *)
| Validation_every_n_steps. (* fit: batch_idx % validation_every_n_steps *)

Inductive exn : Type :=
| ZeroDivisionError (site : mod_site)
| TypeError            (* int % str, when lr_step is a string other than "epoch" *)
| AttributeError       (* self.lr_scheduler was never assigned *)
| StopIteration        (* next() on the cycle of an empty validation loader *)
| StepError (msg : string). (* whatever self.step raises *)

Inductive result (A : Type) : Type :=
| Ok (a : A)
| Raise (e : exn).
Arguments Ok {A} a.
Arguments Raise {A} e.

(** What a call of the subclass's [step] does: return, or raise. *)
Inductive step_result (A : Type) : Type :=
| Returned (a : A)
| Raised (msg : string).
Arguments Returned {A} a.
Arguments Raised {A} msg.

(** The [lr_step] argument: a string (["epoch"]), [None], or an interval. *)
Inductive lr_step_t : Type :=
| LrStr (s : string)
| LrNone
| LrInt (n : Z).

(** The constructor arguments the loop reads.  [has_lr_scheduler] is false
    when [lr_scheduler] was [None]: [__init__] then leaves the attribute
    [self.lr_scheduler] unassigned. *)
Record trainer : Type := {
  lr_step : lr_step_t;
  has_lr_scheduler : bool;
  accumulate_grad_batches : Z
}.

Section WithStep.

(** Batches, losses and logged scalars are opaque (moving a batch to the
    device does not show); [step] is the subclass's
    [step(batch, batch_idx)], returning [(loss, logs)] or raising;
    [lr_value n] is the learning rate of the optimizer's first parameter
    group after [n] scheduler steps. *)
Context {Batch Loss Scalar : Type}.
Variable step : Batch -> Z -> step_result (Loss * list (string * Scalar)).
Variable lr_value : nat -> Scalar.

(** ** Effects *)

(** Calls made to the collaborators, in program order.  The flag of
    [Call_step] tells whether the call is made under [torch.no_grad()];
    [Opt_step g] is an optimizer update that consumes the gradient buffer
    [g], the list of losses whose [backward] accumulated into it. *)
Inductive event : Type :=
| Print_epoch (epoch : Z)
| Call_step (no_grad : bool) (b : Batch) (batch_idx : Z)
| Zero_grad
| Backward (l : Loss)
| Clip_grad_norm
| Opt_step (g : list Loss)
| Log_dict (params : list (string * Scalar)) (step : Z)
| Lr_scheduler_step
| Save_model (step : Z)
| Model_eval
| Model_train.

(** The mutable state: [self.global_step], the gradient buffer of the
    model's parameters, the number of scheduler steps taken, and the
    number of batches pulled from [validation_dataloader]. *)
Record state : Type := {
  global_step : Z;
  grad : list Loss;
  sched_steps : nat;
  val_pulled : nat
}.

(** A computation emits events, updates the state, and returns or
    raises; the state reached when an exception is raised is kept. *)
Definition M (A : Type) : Type := state -> list event * state * result A.

Definition ret {A} (a : A) : M A := fun s => ([], s, Ok a).
Definition raise {A} (e : exn) : M A := fun s => ([], s, Raise e).
Definition bind {A B} (m : M A) (k : A -> M B) : M B := fun s =>
  match m s with
  | (t, s', Ok a) =>
      match k a s' with
      | (t', s'', r) => (t ++ t', s'', r)
      end
  | (t, s', Raise e) => (t, s', Raise e)
  end.
Definition emit (e : event) : M unit := fun s => ([e], s, Ok tt).
Definition gets {A} (f : state -> A) : M A := fun s => ([], s, Ok (f s)).
Definition modify (f : state -> state) : M unit := fun s => ([], f s, Ok tt).

Notation "'let*' x ':=' c1 'in' c2" := (bind c1 (fun x => c2))
  (at level 10, x name, c1 at level 100, c2 at level 200).
Notation "c1 >>> c2" := (bind c1 (fun _ => c2))
  (at level 100, c2 at level 200, right associativity).

(** [a % n] on Python ints: floor remainder, [ZeroDivisionError] at 0. *)
Definition py_mod (site : mod_site) (a n : Z) : M Z :=
  if n =? 0 then raise (ZeroDivisionError site) else ret (a mod n).

Definition set_global_step (g : Z) (s : state) : state :=
  {| global_step := g; grad := grad s;
     sched_steps := sched_steps s; val_pulled := val_pulled s |}.
Definition set_grad (g : list Loss) (s : state) : state :=
  {| global_step := global_step s; grad := g;
     sched_steps := sched_steps s; val_pulled := val_pulled s |}.
Definition set_sched_steps (n : nat) (s : state) : state :=
  {| global_step := global_step s; grad := grad s;
     sched_steps := n; val_pulled := val_pulled s |}.
Definition set_val_pulled (n : nat) (s : state) : state :=
  {| global_step := global_step s; grad := grad s;
     sched_steps := sched_steps s; val_pulled := n |}.

(** [self.step(batch, batch_idx)] *)
Definition call_step (no_grad : bool) (b : Batch) (batch_idx : Z)
  : M (Loss * list (string * Scalar)) :=
  emit (Call_step no_grad b batch_idx) >>>
  match step b batch_idx with
  | Returned r => ret r
  | Raised msg => raise (StepError msg)
  end.

(** [self.opt.zero_grad()] *)
Definition zero_grad : M unit :=
  emit Zero_grad >>> modify (set_grad []).

(** [loss.backward()]: gradients add up in the buffer. *)
Definition backward (l : Loss) : M unit :=
  emit (Backward l) >>> modify (fun s => set_grad (grad s ++ [l]) s).

(** [self.opt.step()] *)
Definition opt_step : M unit :=
  let* g := gets grad in emit (Opt_step g).

(** [self.lr_scheduler.step()] *)
Definition lr_scheduler_step : M unit :=
  emit Lr_scheduler_step >>>
  modify (fun s => set_sched_steps (S (sched_steps s)) s).

(** [{f"{p}{k}": v for k, v in logs.items()}] *)
Definition prefix_keys (p : string) (logs : list (string * Scalar))
  : list (string * Scalar) :=
  map (fun kv => (p +:+ fst kv, snd kv)) logs.

Section Configured.
Variable cfg : trainer.

(** ** [training_step] *)
Definition training_step (b : Batch) (batch_idx : Z) : M unit :=
  let* r := call_step false b batch_idx in
  zero_grad >>>
  backward (fst r) >>>
  let* g := gets global_step in
  let* m := py_mod Accumulate_grad_batches g (accumulate_grad_batches cfg) in
  (if m =? 0 then emit Clip_grad_norm >>> opt_step else ret tt) >>>
  let* n := gets sched_steps in
  let logs := dict_set (snd r) "lr" (lr_value n) in
  let logs := prefix_keys "train/" logs in
  let* g := gets global_step in
  emit (Log_dict logs g).

(** The [log_dict] argument of [training_step], from the [logs] that
    [step] returned. *)
Definition train_logs (logs : list (string * Scalar)) (s : state)
  : list (string * Scalar) :=
  prefix_keys "train/" (dict_set logs "lr" (lr_value (sched_steps s))).

(** ** [validation_step] and [validation_log] *)
Definition validation_log (logs : list (string * Scalar)) : M unit :=
  let* g := gets global_step in
  emit (Log_dict (prefix_keys "val/" logs) g).

Definition validation_step (b : Batch) (batch_idx : Z) : M unit :=
  emit Model_eval >>>
  let* r := call_step true b batch_idx in
  validation_log (snd r) >>>
  emit Model_train.

(** ** [fit] *)
Section Fit.
Variables (max_epochs max_steps : Z).
Variables (validation_every_n_steps save_every_n_steps : Z).
(** [datamodule.train_dataloader()] and [datamodule.val_dataloader()] *)
Variables (train_dataloader val_dataloader : list Batch).

(** [next(validation_dataloader)] on [itertools.cycle]. *)
Definition next_validation_batch : M Batch :=
  let* k := gets val_pulled in
  match nth_error val_dataloader (k mod length val_dataloader)%nat with
  | None => raise StopIteration
  | Some b => modify (set_val_pulled (S k)) >>> ret b
  end.

(** Lines 104-109: the step-wise scheduler. *)
Definition step_lr_scheduler : M unit :=
  match lr_step cfg with
  | LrNone => ret tt
  | LrStr s => if String.eqb s "epoch" then ret tt else raise TypeError
  | LrInt n =>
      let* g := gets global_step in
      let* m := py_mod Lr_step g n in
      if m =? 0
      then if has_lr_scheduler cfg then lr_scheduler_step
           else raise AttributeError
      else ret tt
  end.

(** Lines 125-126: the epoch-wise scheduler. *)
Definition epoch_lr_scheduler : M unit :=
  match lr_step cfg with
  | LrStr s =>
      if String.eqb s "epoch"
      then if has_lr_scheduler cfg then lr_scheduler_step
           else raise AttributeError
      else ret tt
  | _ => ret tt
  end.

(** Lines 115-116 *)
Definition save_checkpoint : M unit :=
  let* g := gets global_step in
  let* m := py_mod Save_every_n_steps g save_every_n_steps in
  if m =? 0 then emit (Save_model g) else ret tt.

(** Lines 118-123 *)
Definition validate (batch_idx : Z) : M unit :=
  let* m := py_mod Validation_every_n_steps batch_idx
              validation_every_n_steps in
  if m =? 0
  then let* b := next_validation_batch in validation_step b batch_idx
  else ret tt.

(** The inner [for batch_idx, batch in enumerate(...)] loop; the
    result is the flag [stop]. *)
Fixpoint train_loop (batches : list Batch) (batch_idx : Z) : M bool :=
  match batches with
  | [] => ret false
  | b :: rest =>
      training_step b batch_idx >>>
      modify (fun s => set_global_step (global_step s + 1) s) >>>
      step_lr_scheduler >>>
      let* g := gets global_step in
      if g >? max_steps then ret true
      else
        save_checkpoint >>>
        validate batch_idx >>>
        train_loop rest (batch_idx + 1)
  end.

(** The outer [for epoch in range(max_epochs)] loop, [n] epochs from
    [epoch] on. *)
Fixpoint epoch_loop (n : nat) (epoch : Z) : M unit :=
  match n with
  | O => ret tt
  | S n' =>
      emit (Print_epoch epoch) >>>
      let* stop := train_loop train_dataloader 0 in
      epoch_lr_scheduler >>>
      if stop then ret tt else epoch_loop n' (epoch + 1)
  end.

Definition fit : M unit :=
  modify (set_global_step 0) >>>
  modify (set_val_pulled 0) >>>
  epoch_loop (Z.to_nat max_epochs) 0.

End Fit.
End Configured.

(** ** The first batch of a [fit] call *)

(** The events up to the end of the first training step, when [step]
    returns [r] on the first batch [b] and the optimizer is updated. *)
Definition first_step_trace (b : Batch)
  (r : Loss * list (string * Scalar)) (s : state) : list event :=
  [Print_epoch 0; Call_step false b 0; Zero_grad; Backward (fst r);
   Clip_grad_norm; Opt_step [fst r];
   Log_dict (train_logs (snd r) s) 0].

(** The state after that training step and the increment of the counter,
    for a [fit] call made in state [s]. *)
Definition after_first (r : Loss * list (string * Scalar)) (s : state)
  : state :=
  set_global_step 1
    (set_grad [fst r] (set_val_pulled 0 (set_global_step 0 s))).

(** ** Reading a run *)

Definition trace_of {A} (x : list event * state * result A) : list event :=
  fst (fst x).
Definition final_state {A} (x : list event * state * result A) : state :=
  snd (fst x).
Definition outcome {A} (x : list event * state * result A) : result A :=
  snd x.

Definition is_opt_step (e : event) : bool :=
  match e with Opt_step _ => true | _ => false end.
Definition is_lr_scheduler_step (e : event) : bool :=
  match e with Lr_scheduler_step => true | _ => false end.
Definition is_print_epoch (e : event) : bool :=
  match e with Print_epoch _ => true | _ => false end.
(** A call of [self.step] made by [training_step]. *)
Definition is_training_call (e : event) : bool :=
  match e with Call_step false _ _ => true | _ => false end.

(** How many events of a trace satisfy [p]. *)
Definition count (p : event -> bool) (t : list event) : nat :=
  length (List.filter p t).

(** The steps passed to [logger.save_model], in order. *)
Definition saved_steps (t : list event) : list Z :=
  flat_map (fun e => match e with Save_model g => [g] | _ => [] end) t.

(** The step of a [log_dict] call made by [training_step]: its keys include
    ["train/lr"], which no call made by [validation_log] has. *)
Definition train_log_step (e : event) : option Z :=
  match e with
  | Log_dict params g =>
      match dict_get params "train/lr" with
      | Some _ => Some g
      | None => None
      end
  | _ => None
  end.

(** A training step has just been logged at a step [g] with
    [max_steps < g + 1]. *)
Definition over_limit (max_steps : Z) (e : event) : bool :=
  match train_log_step e with
  | Some g => max_steps <? g + 1
  | None => false
  end.

(** After the first training step that takes the counter over [max_steps],
    the trace has scheduler steps only. *)
Fixpoint halts_after_limit (max_steps : Z) (t : list event) : bool :=
  match t with
  | [] => true
  | e :: t' =>
      if over_limit max_steps e then forallb is_lr_scheduler_step t'
      else halts_after_limit max_steps t'
  end.

(** The trace is a sequence of epochs, each opened by its [print] and
    closed by one scheduler step, with no scheduler step in between and no
    event outside an epoch. *)
Fixpoint scheduler_closes_epochs (in_epoch : bool) (t : list event) : bool :=
  match t with
  | [] => negb in_epoch
  | Print_epoch _ :: t' => negb in_epoch && scheduler_closes_epochs true t'
  | Lr_scheduler_step :: t' => in_epoch && scheduler_closes_epochs false t'
  | _ :: t' => in_epoch && scheduler_closes_epochs in_epoch t'
  end.

(** An event of the batch loop when the scheduler is epoch-wise: neither
    the [print] that opens an epoch nor a scheduler step. *)
Definition inner (e : event) : Prop :=
  is_print_epoch e = false /\ is_lr_scheduler_step e = false.

(** Passes over the training source that ran through all of its
    [n_batches] batches. *)
Definition completed_epochs (n_batches : nat) (t : list event) : nat :=
  (count is_training_call t / n_batches)%nat.

(** An optimizer update that consumes the gradient of one loss only, and
    that loss is one [step] returned. *)
Definition single_batch_update (e : event) : Prop :=
  match e with
  | Opt_step g => exists b batch_idx r, step b batch_idx = Returned r /\ g = [fst r]
  | _ => True
  end.

(** The outcome is a [ZeroDivisionError] of one of the three remainders by
    [accumulate_grad_batches], [save_every_n_steps] and
    [validation_every_n_steps]. *)
Definition zero_division {A} (r : result A) : Prop :=
  match r with
  | Raise (ZeroDivisionError Lr_step) => False
  | Raise (ZeroDivisionError _) => True
  | _ => False
  end.

(** [step_lr_scheduler] cannot raise: [lr_step] is ["epoch"], [None], or a
    nonzero interval with a scheduler. *)
Definition lr_step_safe (cfg : trainer) : Prop :=
  match lr_step cfg with
  | LrStr s => s = "epoch"
  | LrNone => True
  | LrInt n => n <> 0 /\ has_lr_scheduler cfg = true
  end.

(** ** More readings of a run *)

(** The steps of the [log_dict] calls made by [training_step], in order. *)
Definition train_log_steps (t : list event) : list Z :=
  flat_map (fun e => match train_log_step e with
                     | Some g => [g]
                     | None => []
                     end) t.

(** The batches and the batch indices that [validation_step] passed to
    [step], in order. *)
Definition validation_batches (t : list event) : list Batch :=
  flat_map (fun e => match e with
                     | Call_step true b _ => [b]
                     | _ => []
                     end) t.
Definition validation_indices (t : list event) : list Z :=
  flat_map (fun e => match e with
                     | Call_step true _ idx => [idx]
                     | _ => []
                     end) t.

(** The model is in training mode whenever something other than the
    validation's call of [step] and its logging happens: [in_eval] tells
    whether [model.eval()] is in force.  A trace may end in evaluation mode
    (when [step] raises inside [validation_step]). *)
Fixpoint mode_respected (in_eval : bool) (t : list event) : bool :=
  match t with
  | [] => true
  | Model_eval :: t' => negb in_eval && mode_respected true t'
  | Model_train :: t' => in_eval && mode_respected false t'
  | Call_step true _ _ :: t' => in_eval && mode_respected in_eval t'
  | Log_dict _ _ :: t' => mode_respected in_eval t'
  | _ :: t' => negb in_eval && mode_respected in_eval t'
  end.

End WithStep.

(** ** A concrete instance

    Batches are numbers, the loss of a batch is the batch itself, and
    [step] logs one scalar. *)
Definition demo_step (b : nat) (batch_idx : Z)
  : step_result (nat * list (string * Z)) :=
  Returned (b, [("loss", Z.of_nat b)]).
Definition demo_lr (n : nat) : Z := Z.of_nat n.
Definition demo_state : @state nat :=
  {| global_step := 7; grad := [41%nat; 42%nat];
     sched_steps := 0; val_pulled := 3 |}.

(** An epoch-wise scheduler and accumulation over 4 batches. *)
Definition demo_epoch_cfg : trainer :=
  {| lr_step := LrStr "epoch"; has_lr_scheduler := true;
     accumulate_grad_batches := 4 |}.

(** No scheduler; the accumulation factor is [acc]. *)
Definition demo_plain_cfg (acc : Z) : trainer :=
  {| lr_step := LrNone; has_lr_scheduler := false;
     accumulate_grad_batches := acc |}.

(** [fit] on the instance. *)
Abbreviation demo_fit cfg max_epochs max_steps validation_every_n_steps
  save_every_n_steps train_dataloader val_dataloader :=
  (fit demo_step demo_lr cfg max_epochs max_steps validation_every_n_steps
     save_every_n_steps train_dataloader val_dataloader demo_state).

(** A scheduler stepped every [n] steps; no accumulation. *)
Definition demo_stepwise_cfg (n : Z) : trainer :=
  {| lr_step := LrInt n; has_lr_scheduler := true;
     accumulate_grad_batches := 1 |}.

(** A string [lr_step], with or without a scheduler; no accumulation. *)
Definition demo_string_cfg (p : string) (sched : bool) : trainer :=
  {| lr_step := LrStr p; has_lr_scheduler := sched;
     accumulate_grad_batches := 1 |}.

End Trainer.

(* ===================================================================== *)
(** * Part III: properties of the logger                                  *)
(* ===================================================================== *)

Module LoggerSpec.
Import Logger.

(** ** Run directories *)






Lemma string_app_cons x (a b : string) : String x a +:+ b = String x (a +:+ b).
Proof. reflexivity. Qed.

Lemma string_app_assoc (a b c : string) : (a +:+ b) +:+ c = a +:+ (b +:+ c).
Proof.
  induction a as [|x a IH]; [done|].
  by rewrite !string_app_cons, IH.
Qed.

Lemma string_app_nil_r (a : string) : a +:+ EmptyString = a.
Proof.
  induction a as [|x a IH]; [done|].
  by rewrite string_app_cons, IH.
Qed.




(** ** The hyper-parameter mapping *)

Lemma all_str_dict_set d k v :
  all_str d → is_str v = true → all_str (dict_set d k v).
Proof.
  unfold all_str. intros Hd Hv.
  induction d as [|[k' v'] d IH]; simpl.
  - by repeat constructor.
  - inversion_clear Hd as [|?? Hv' Hd'].
    destruct (String.eqb k' k); constructor; auto.
Qed.

Lemma all_str_dict_update hp : ∀ d,
  all_str d → all_str hp → all_str (dict_update d hp).
Proof.
  induction hp as [|[k v] hp IH]; intros d Hd Hhp; simpl; [done|].
  inversion_clear Hhp as [|?? Hv Hhp'].
  apply IH; [|done]. by apply all_str_dict_set.
Qed.

Lemma all_str_coerce repr_str h : all_str (coerce_hparams repr_str h).
Proof. unfold all_str, coerce_hparams. apply Forall_map, Forall_true. done. Qed.

Lemma dict_set_elem (d : list (string * value)) k v : (k, v) ∈ dict_set d k v.
Proof.
  induction d as [|[k' v'] d IH]; simpl; [by left|].
  destruct (String.eqb_spec k' k) as [->|]; [by left|by right].
Qed.

Lemma dict_set_other (d : list (string * value)) k v k' v' :
  k ≠ k' → (k, v) ∈ d → (k, v) ∈ dict_set d k' v'.
Proof.
  intros Hne. induction d as [|[k0 v0] d IH]; simpl; intros Hin.
  - by apply elem_of_nil in Hin.
  - apply elem_of_cons in Hin as [Heq|Hin].
    + injection Heq as <- <-.
      destruct (String.eqb_spec k k') as [->|]; [done|by left].
    + destruct (String.eqb k0 k'); right; auto.
Qed.

Lemma dict_update_keeps hp : ∀ (d : list (string * value)) k v,
  k ∉ hp.*1 → (k, v) ∈ d → (k, v) ∈ dict_update d hp.
Proof.
  induction hp as [|[k' v'] hp IH]; intros d k v Hk Hin; simpl; [done|].
  simpl in Hk. apply not_elem_of_cons in Hk as [Hne Hk].
  apply IH; [done|]. by apply dict_set_other.
Qed.

(** [update] stores the values of a dict argument as they are. *)
Lemma dict_update_stores hp : ∀ (d : list (string * value)) k v,
  NoDup hp.*1 → (k, v) ∈ hp → (k, v) ∈ dict_update d hp.
Proof.
  induction hp as [|[k' v'] hp IH]; intros d k v Hnd Hin; simpl.
  - by apply elem_of_nil in Hin.
  - simpl in Hnd. apply NoDup_cons in Hnd as [Hk' Hnd].
    apply elem_of_cons in Hin as [Heq|Hin].
    + injection Heq as -> ->. apply dict_update_keeps; [done|].
      apply dict_set_elem.
    + by apply IH.
Qed.


(** ** Claims about the logger *)



(** C6, on the logger.  For the plain nested dict [{a: {b: 1}, c: "x"}],
    [flatten_dict] and the coercion give the claimed [{"a/b": "1", "c": "x"}].
    The constructor, however, flattens an OmegaConf configuration, whose
    nested configuration is not a [dict]: for the configuration
    [{a: {b: 1}, c: "x"}] it stores the text of the whole nested
    configuration under ["a"], and no key ["a/b"]. *)
Theorem constructor_keeps_nested_config_whole :
  coerce_hparams quoted
    (flatten_dict [("a", Dict [("b", Leaf (SInt 1))]); ("c", Leaf (SStr "x"))]
       "" "/")
  = [("a/b", Leaf (SStr "1")); ("c", Leaf (SStr "x"))]
  ∧ init quoted ∅ "logs" "kan" "v0"
      [("a", NDict [("b", NInt 1)]); ("c", NStr "x")]
    = Some (create_run ∅ "logs" "logs/run0",
            {| save_dir := "logs/run0"; version := "v0";
               hparams := [("a", Leaf (SStr "{'b': 1}"));
                           ("c", Leaf (SStr "x"));
                           ("save_dir", Leaf (SStr "logs/run0"))];
               metrics := [] |}).
Proof. split; vm_compute; reflexivity. Qed.

(** C8, as stated, fails: after a construction, an [update_hyperparams]
    call with a value that is not a string stores it as it is. *)
Lemma update_hyperparams_breaks_all_str :
  init quoted ∅ "logs" "kan" "v0" [("a", NDict [("b", NInt 1)])]
  = Some (create_run ∅ "logs" "logs/run0", logger0)
  ∧ all_str (hparams logger0)
  ∧ ¬ all_str (hparams (update_hyperparams logger0 [("lr", Leaf (SInt 1))] [])).
Proof.
  split; [vm_compute; reflexivity|]. split.
  - by repeat constructor.
  - vm_compute. intros H. inversion H as [|?? _ H']. inversion H' as [|?? _ H''].
    inversion H'' as [|?? Hv _]. discriminate Hv.
Qed.

(** C8, amended.  Every value of the hyper-parameter mapping is a string
    after construction; [update_hyperparams] merges the argument without
    coercing it, so a call, the first or a later one, keeps the invariant
    exactly when every value of its argument is a string: [l'] is any
    logger whose mapping has the invariant.  Hence the invariant holds
    after every sequence of calls whose arguments have string values
    only. *)
Theorem hparams_all_str (repr_str : string → string)
  (files files' : fs) (d name v : string)
  (cfg : list (string * node)) (l l' : logger)
  (hp ms : list (string * value))
  (Hinit : init repr_str files d name v cfg = Some (files', l))
  (Hinv : all_str (hparams l'))
  (Hkeys : NoDup hp.*1) :
  all_str (hparams l)
  ∧ (all_str (hparams (update_hyperparams l' hp ms)) ↔ all_str hp)
  ∧ ∀ calls : list (list (string * value) * list (string * value)),
      Forall (λ c, all_str c.1) calls →
      all_str (hparams (fold_left (λ a c, update_hyperparams a c.1 c.2)
                          calls l)).
Proof.
  assert (Hl : all_str (hparams l)).
  { unfold init in Hinit.
    destruct (folder_structure _ _ _) as [[[f p] c]|]; [|discriminate].
    injection Hinit as _ <-. apply all_str_coerce. }
  split; [done|]. split.
  - simpl. split.
    + intros Hall. unfold all_str in *. rewrite Forall_forall in *.
      intros [k x] Hin. apply Hall. by apply dict_update_stores.
    + by apply all_str_dict_update.
  - intros calls. clear Hinit. revert l Hl.
    induction calls as [|[hp1 ms1] calls IH]; intros l Hl Hcalls; [done|].
    inversion_clear Hcalls as [|?? Hhp1 Hrest].
    simpl. apply IH; [|done]. simpl. by apply all_str_dict_update.
Qed.

Lemma hparams_all_str_witness :
  (init quoted ∅ "logs" "kan" "v0" [("a", NDict [("b", NInt 1)])]
   = Some (create_run ∅ "logs" "logs/run0", logger0)
   ∧ all_str (hparams (update_hyperparams logger0
                         [("opt", Leaf (SStr "adam"))] []))
   ∧ NoDup [("lr", Leaf (SStr "0.1"))].*1)
  ∧ all_str (hparams logger0)
  ∧ (all_str (hparams (update_hyperparams
                         (update_hyperparams logger0
                            [("opt", Leaf (SStr "adam"))] [])
                         [("lr", Leaf (SStr "0.1"))] []))
     ↔ all_str [("lr", Leaf (SStr "0.1"))]).
Proof.
  assert (H1 :
    init quoted ∅ "logs" "kan" "v0" [("a", NDict [("b", NInt 1)])]
    = Some (create_run ∅ "logs" "logs/run0", logger0))
    by (vm_compute; reflexivity).
  assert (H2 : all_str (hparams (update_hyperparams logger0
                                   [("opt", Leaf (SStr "adam"))] [])))
    by (by repeat constructor).
  assert (H3 : NoDup [("lr", Leaf (SStr "0.1"))].*1)
    by apply NoDup_singleton.
  split; [split; [exact H1|split; [exact H2|exact H3]]|].
  pose proof (hparams_all_str quoted ∅ _ "logs" "kan" "v0" _ logger0
                (update_hyperparams logger0 [("opt", Leaf (SStr "adam"))] [])
                [("lr", Leaf (SStr "0.1"))] [] H1 H2 H3) as Hthm.
  split; [exact (proj1 Hthm)|exact (proj1 (proj2 Hthm))].
Defined.

(** ** Dicts *)

Section DictFacts.
Context {V : Type}.
Implicit Types (d items : list (string * V)) (k : string) (v : V).

Lemma dict_update_cons d k v items :
  dict_update d ((k, v) :: items) = dict_update (dict_set d k v) items.
Proof. reflexivity. Qed.

Lemma dict_set_fresh d k v : k ∉ d.*1 → dict_set d k v = d ++ [(k, v)].
Proof.
  induction d as [|[k' v'] d IH]; simpl; [done|].
  intros [Hne Hk]%not_elem_of_cons.
  destruct (String.eqb_spec k' k) as [->|_]; [done|]. by rewrite IH.
Qed.

Lemma dict_set_keys d k v :
  (dict_set d k v).*1 = if decide (k ∈ d.*1) then d.*1 else d.*1 ++ [k].
Proof.
  induction d as [|[k' v'] d IH]; [done|].
  cbn [dict_set]. rewrite (fmap_cons fst _ d). cbn [fst].
  destruct (String.eqb_spec k' k) as [->|Hne].
  - rewrite decide_True by left. by rewrite fmap_cons.
  - rewrite fmap_cons, IH. cbn [fst].
    destruct (decide (k ∈ d.*1)) as [Hin|Hout].
    + rewrite decide_True by (by right). done.
    + rewrite decide_False; [done|].
      intros [?|?]%elem_of_cons; [by subst|done].
Qed.

Lemma dict_update_app d items1 items2 :
  dict_update d (items1 ++ items2)
  = dict_update (dict_update d items1) items2.
Proof. apply fold_left_app. Qed.

Lemma dict_update_NoDup items : ∀ d,
  NoDup d.*1 → NoDup (dict_update d items).*1.
Proof.
  induction items as [|[k v] items IH]; intros d Hd; [done|].
  rewrite dict_update_cons. apply IH. rewrite dict_set_keys. case_decide; [done|].
  apply NoDup_app. split; [done|]. split; [|apply NoDup_singleton].
  intros k' Hk' ->%list_elem_of_singleton. done.
Qed.

(** Items with fresh, distinct keys are appended as they are. *)
Lemma dict_update_fresh items : ∀ d,
  NoDup (d ++ items).*1 → dict_update d items = d ++ items.
Proof.
  induction items as [|[k v] items IH]; intros d Hnd.
  { by rewrite app_nil_r. }
  rewrite dict_update_cons. rewrite fmap_app in Hnd. apply NoDup_app in Hnd as (Hd & Hdis & Hit).
  rewrite dict_set_fresh by (intros Hin; apply (Hdis k Hin); by left).
  rewrite IH; [by rewrite <- app_assoc|].
  rewrite <- app_assoc, fmap_app. apply NoDup_app. split; [done|].
  split; [done|done].
Qed.

Lemma dict_of_items_NoDup items : NoDup items.*1 → dict_of_items items = items.
Proof. intros H. by apply (dict_update_fresh items []). Qed.

Lemma dict_update_elem items : ∀ d k v,
  (k, v) ∈ dict_update d items → (k, v) ∈ d ∨ (k, v) ∈ items.
Proof.
  induction items as [|[k0 v0] items IH]; intros d k v Hin.
  { by left. }
  rewrite dict_update_cons in Hin. apply IH in Hin as [Hin|Hin]; [|right; by right].
  clear IH. induction d as [|[k' v'] d IHd]; simpl in Hin.
  - apply list_elem_of_singleton in Hin as ->. right. by left.
  - destruct (String.eqb_spec k' k0) as [->|_].
    + apply elem_of_cons in Hin as [->|Hin]; [right; by left|].
      left. by right.
    + apply elem_of_cons in Hin as [->|Hin]; [left; by left|].
      destruct (IHd Hin) as [?|?]; [left; by right|by right].
Qed.

Lemma dict_get_set d k v k' :
  dict_get (dict_set d k v) k'
  = if decide (k = k') then Some v else dict_get d k'.
Proof.
  induction d as [|[k0 v0] d IH]; simpl.
  - destruct (String.eqb_spec k k') as [->|Hne].
    + by rewrite decide_True.
    + by rewrite decide_False.
  - destruct (String.eqb_spec k0 k) as [->|Hne]; simpl.
    + destruct (String.eqb_spec k k') as [->|Hne'].
      * by rewrite decide_True.
      * by rewrite decide_False.
    + rewrite IH. destruct (String.eqb_spec k0 k') as [->|Hne'].
      * by rewrite decide_False.
      * done.
Qed.

Lemma dict_get_None d k : k ∉ d.*1 → dict_get d k = None.
Proof.
  induction d as [|[k0 v0] d IH]; simpl; [done|].
  intros [Hne Hk]%not_elem_of_cons.
  destruct (String.eqb_spec k0 k) as [->|_]; [done|]. by apply IH.
Qed.

(** Looking up after [update]: the argument's value when it has the key,
    the old value otherwise. *)
Lemma dict_get_update items : ∀ d k,
  NoDup items.*1 →
  dict_get (dict_update d items) k
  = match dict_get items k with
    | Some v => Some v
    | None => dict_get d k
    end.
Proof.
  induction items as [|[k0 v0] items IH]; intros d k Hnd; [done|].
  rewrite dict_update_cons. simpl in Hnd |- *.
  apply NoDup_cons in Hnd as [Hk0 Hnd].
  rewrite IH by done. rewrite dict_get_set.
  destruct (String.eqb_spec k0 k) as [->|Hne].
  - rewrite decide_True by done. by rewrite dict_get_None.
  - by rewrite decide_False.
Qed.

End DictFacts.

(** ** More on [flatten_dict] *)

(** The [items] list of the loop of [flatten_dict], before [dict(items)]. *)
Lemma flatten_dict_eq d parent_key sep :
  flatten_dict d parent_key sep
  = dict_of_items
      (flat_map (λ kv, flatten_value kv.2 (new_key parent_key sep kv.1) sep)
         d).
Proof.
  unfold flatten_dict. cbn [flatten_value]. f_equal.
  induction d as [|[k v] d IH]; [done|].
  cbn [flat_map fst snd]. by rewrite <- IH.
Qed.

(** Induction on the nesting of a value. *)
Lemma value_nested_ind (P : value → Prop)
  (Hleaf : ∀ x, P (Leaf x))
  (Hdict : ∀ d, Forall (λ kv, P kv.2) d → P (Dict d)) :
  ∀ v, P v.
Proof.
  fix IH 1. intros [x|d]; [apply Hleaf|].
  apply Hdict. induction d as [|[k v] d IHd]; constructor; [apply IH|done].
Qed.

Lemma new_key_nonempty parent_key sep k :
  parent_key ≠ "" → new_key parent_key sep k = parent_key +:+ sep +:+ k.
Proof. by destruct parent_key. Qed.

Lemma string_app_nonempty (a b : string) : a ≠ "" → a +:+ b ≠ "".
Proof. by destruct a. Qed.

(** Under a nonempty key, every flattened key starts with that key. *)
Lemma flatten_value_prefix sep v : ∀ parent_key k x,
  parent_key ≠ "" → (k, x) ∈ flatten_value v parent_key sep →
  ∃ suffix, k = parent_key +:+ suffix.
Proof.
  induction v as [y|d IH] using value_nested_ind; intros parent_key k x Hp Hin.
  - apply list_elem_of_singleton in Hin. injection Hin as -> _.
    exists "". by rewrite string_app_nil_r.
  - change (flatten_value (Dict d) parent_key sep)
      with (flatten_dict d parent_key sep) in Hin.
    rewrite flatten_dict_eq in Hin.
    apply dict_update_elem in Hin as [Hin|Hin];
      [by apply elem_of_nil in Hin|].
    apply list_elem_of_In, in_flat_map in Hin as ([k0 v0] & Hkv & Hin).
    apply list_elem_of_In in Hkv, Hin. simpl in Hin.
    rewrite Forall_forall in IH.
    rewrite new_key_nonempty in Hin by done.
    destruct (IH _ Hkv (parent_key +:+ sep +:+ k0) k x) as [suffix ->];
      [by apply string_app_nonempty|done|].
    exists (sep +:+ k0 +:+ suffix). by rewrite !string_app_assoc.
Qed.

(** X13.  Under a nonempty parent key, every key of [flatten_dict] is the
    parent key, the separator, a key of the dict, and possibly more. *)
Theorem flatten_dict_keys_prefixed (d : list (string * value))
  (parent_key sep k : string) (x : scalar)
  (Hparent : parent_key ≠ "")
  (Hin : (k, x) ∈ flatten_dict d parent_key sep) :
  ∃ k0 suffix, k0 ∈ d.*1 ∧ k = parent_key +:+ sep +:+ k0 +:+ suffix.
Proof.
  rewrite flatten_dict_eq in Hin.
  apply dict_update_elem in Hin as [Hin|Hin]; [by apply elem_of_nil in Hin|].
  apply list_elem_of_In, in_flat_map in Hin as ([k0 v0] & Hkv & Hin).
  apply list_elem_of_In in Hkv, Hin. simpl in Hin.
  rewrite new_key_nonempty in Hin by done.
  apply flatten_value_prefix in Hin as [suffix ->];
    [|by apply string_app_nonempty].
  exists k0, suffix. split.
  - apply list_elem_of_fmap. by exists (k0, v0).
  - by rewrite !string_app_assoc.
Qed.

Lemma flatten_dict_keys_prefixed_witness :
  ("model" ≠ "" ∧ ("model/opt/lr", SInt 3)
                  ∈ flatten_dict [("opt", Dict [("lr", Leaf (SInt 3))])]
                      "model" "/")
  ∧ ∃ k0 suffix, k0 ∈ [("opt", Dict [("lr", Leaf (SInt 3))])].*1
                 ∧ "model/opt/lr" = "model" +:+ "/" +:+ k0 +:+ suffix.
Proof.
  assert (H1 : "model" ≠ "") by discriminate.
  assert (H2 : ("model/opt/lr", SInt 3)
               ∈ flatten_dict [("opt", Dict [("lr", Leaf (SInt 3))])]
                   "model" "/") by (vm_compute; left).
  split; [split; [exact H1|exact H2]|].
  exact (flatten_dict_keys_prefixed _ "model" "/" "model/opt/lr" (SInt 3)
           H1 H2).
Defined.

(** X14.  A configuration without nesting and with distinct keys is left
    as it is by [flatten_dict], whatever the separator. *)
Theorem flatten_dict_flat (items : list (string * scalar)) (sep : string)
  (Hkeys : NoDup items.*1) :
  flatten_dict (flat_cfg items) "" sep = items.
Proof.
  rewrite flatten_dict_eq.
  assert (flat_map
            (λ kv : string * value, flatten_value kv.2 (new_key "" sep kv.1) sep)
            (flat_cfg items) = items) as ->.
  { clear Hkeys. induction items as [|[k x] items IH]; [done|].
    simpl. f_equal. exact IH. }
  by apply dict_of_items_NoDup.
Qed.

Lemma flatten_dict_flat_witness :
  NoDup [("lr", SInt 3); ("name", SStr "kan")].*1
  ∧ flatten_dict (flat_cfg [("lr", SInt 3); ("name", SStr "kan")]) "" "."
    = [("lr", SInt 3); ("name", SStr "kan")].
Proof.
  assert (H1 : NoDup [("lr", SInt 3); ("name", SStr "kan")].*1).
  { apply NoDup_cons. split; [|apply NoDup_singleton].
    intros Hin. apply list_elem_of_singleton in Hin. discriminate. }
  split; [exact H1|].
  exact (flatten_dict_flat [("lr", SInt 3); ("name", SStr "kan")] "." H1).
Defined.

(** X15.  The keys of a dict stored under the empty key get no prefix
    ([parent_key] is falsy): at the top level, when the keys of that dict
    and the other keys are all distinct, flattening gives what it gives
    for the dict that has the items of the inner dict in its place. *)
Theorem flatten_dict_empty_key (d rest : list (string * value))
  (sep : string)
  (Hkeys : NoDup (d ++ rest).*1) :
  flatten_dict (("", Dict d) :: rest) "" sep
  = flatten_dict (dict_update d rest) "" sep.
Proof.
  rewrite (dict_update_fresh rest d Hkeys).
  rewrite !flatten_dict_eq. cbn [flat_map fst snd new_key].
  change (flatten_value (Dict d) "" sep) with (flatten_dict d "" sep).
  rewrite flatten_dict_eq, flat_map_app.
  unfold dict_of_items. rewrite !dict_update_app. f_equal.
  apply dict_of_items_NoDup, dict_update_NoDup. constructor.
Qed.

Lemma flatten_dict_empty_key_witness :
  NoDup ([("x", Dict [("p", Leaf (SInt 1))])] ++ [("y", Leaf (SInt 5))]).*1
  ∧ flatten_dict
      [("", Dict [("x", Dict [("p", Leaf (SInt 1))])]); ("y", Leaf (SInt 5))]
      "" "/"
    = [("x/p", SInt 1); ("y", SInt 5)].
Proof.
  assert (H1 : NoDup ([("x", Dict [("p", Leaf (SInt 1))])]
                      ++ [("y", Leaf (SInt 5))]).*1).
  { apply NoDup_cons. split; [|apply NoDup_singleton].
    intros Hin. apply list_elem_of_singleton in Hin. discriminate. }
  split; [exact H1|].
  pose proof (flatten_dict_empty_key [("x", Dict [("p", Leaf (SInt 1))])]
                [("y", Leaf (SInt 5))] "/" H1) as Hthm.
  rewrite Hthm. vm_compute. reflexivity.
Defined.

(** ** More on the logger *)

(** X16.  After [update_hyperparams], looking a key up in the
    hyper-parameters gives the value of the [hparams] argument when it has
    the key and the previous value otherwise, and likewise for the metrics;
    the two mappings do not mix, and the run directory and the version stay
    as they are. *)
Theorem update_hyperparams_lookup (l : logger)
  (hp ms : list (string * value)) (k : string)
  (Hhp : NoDup hp.*1) (Hms : NoDup ms.*1) :
  dict_get (hparams (update_hyperparams l hp ms)) k
  = match dict_get hp k with
    | Some v => Some v
    | None => dict_get (hparams l) k
    end
  ∧ dict_get (metrics (update_hyperparams l hp ms)) k
    = match dict_get ms k with
      | Some v => Some v
      | None => dict_get (metrics l) k
      end
  ∧ save_dir (update_hyperparams l hp ms) = save_dir l
  ∧ version (update_hyperparams l hp ms) = version l.
Proof.
  split_and!; [|  |done|done]; simpl; by apply dict_get_update.
Qed.

Lemma update_hyperparams_lookup_witness :
  (NoDup [("lr", Leaf (SInt 3))].*1 ∧ NoDup [("loss", Leaf (SInt 7))].*1)
  ∧ dict_get (hparams (update_hyperparams logger0
                         [("lr", Leaf (SInt 3))] [("loss", Leaf (SInt 7))]))
      "a"
    = Some (Leaf (SStr "{'b': 1}")).
Proof.
  assert (H1 : NoDup [("lr", Leaf (SInt 3))].*1) by apply NoDup_singleton.
  assert (H2 : NoDup [("loss", Leaf (SInt 7))].*1) by apply NoDup_singleton.
  split; [split; [exact H1|exact H2]|].
  pose proof (update_hyperparams_lookup logger0 [("lr", Leaf (SInt 3))]
                [("loss", Leaf (SInt 7))] "a" H1 H2) as Hthm.
  destruct Hthm as [Hhp _]. rewrite Hhp. vm_compute. reflexivity.
Defined.

Lemma string_length_app (a b : string) :
  String.length (a +:+ b) = (String.length a + String.length b)%nat.
Proof.
  induction a as [|c a IH]; [done|].
  rewrite string_app_cons. simpl. by rewrite IH.
Qed.

Lemma string_app_inj_r (a b c : string) : a +:+ c = b +:+ c → a = b.
Proof.
  revert b. induction a as [|x a IH]; intros [|y b] H.
  - done.
  - apply (f_equal String.length) in H.
    rewrite !string_length_app in H. simpl in H. lia.
  - apply (f_equal String.length) in H.
    rewrite !string_length_app in H. simpl in H. lia.
  - rewrite !string_app_cons in H. injection H as -> H.
    f_equal. by apply IH.
Qed.

(** X17.  Two checkpoints of a logger go to the same file exactly when
    they are saved for the same step: a second [save_model] with the same
    step overwrites the first, and different steps never collide. *)
Theorem checkpoint_path_step (l : logger) (step1 step2 : Z) :
  checkpoint_path l step1 = checkpoint_path l step2 ↔ step1 = step2.
Proof.
  split; [|by intros ->].
  unfold checkpoint_path. intros H.
  apply (inj (String.app (save_dir l))) in H.
  apply (inj (String.app "/checkpoints/model_")) in H.
  apply string_app_inj_r in H.
  by apply (inj pretty) in H.
Qed.

(** ** The run directory among the hyper-parameters *)

Lemma dict_get_coerce repr_str h k :
  dict_get (coerce_hparams repr_str h) k
  = option_map (λ x, Leaf (SStr (py_str repr_str x))) (dict_get h k).
Proof.
  induction h as [|[k0 x0] h IH]; [done|].
  simpl. by destruct (String.eqb k0 k).
Qed.

(** The constructor's [flatten_dict] call never descends: no value that a
    [DictConfig] gives is a [dict]. *)
Lemma flatten_config_items cfg sep :
  NoDup cfg.*1 →
  flatten_dict (config_items cfg) "" sep
  = map (λ kv, (kv.1, node_value kv.2)) cfg.
Proof.
  intros Hnd. rewrite flatten_dict_eq.
  assert (flat_map
            (λ kv : string * value, flatten_value kv.2 (new_key "" sep kv.1) sep)
            (config_items cfg)
          = map (λ kv, (kv.1, node_value kv.2)) cfg) as ->.
  { clear Hnd. induction cfg as [|[k n] cfg IH]; [done|].
    simpl. f_equal. exact IH. }
  apply dict_of_items_NoDup.
  clear -Hnd. induction cfg as [|[k n] cfg IH]; [done|].
  simpl in *. apply NoDup_cons in Hnd as [Hk Hnd].
  apply NoDup_cons. split; [|by apply IH].
  intros Hin. apply Hk. clear -Hin.
  induction cfg as [|[k' n'] cfg IH]; [done|].
  simpl in *. apply elem_of_cons in Hin as [->|Hin]; [left|right; by apply IH].
Qed.

Lemma dict_get_config cfg k :
  dict_get (map (λ kv : string * node, (kv.1, node_value kv.2)) cfg) k
  = option_map node_value (dict_get cfg k).
Proof.
  induction cfg as [|[k0 n0] cfg IH]; [done|].
  simpl. by destruct (String.eqb k0 k).
Qed.

(** X18.  The hyper-parameters of a newly constructed logger have the run
    directory of the logger under ["save_dir"], not the directory that was
    passed in, whatever the configuration had there, at the top or inside a
    nested configuration. *)
Theorem init_records_run_directory (repr_str : string → string)
  (files files' : fs) (d name v : string)
  (cfg : list (string * node)) (l : logger)
  (Hinit : init repr_str files d name v cfg = Some (files', l))
  (Hkeys : NoDup cfg.*1) :
  dict_get (hparams l) "save_dir" = Some (Leaf (SStr (save_dir l))).
Proof.
  unfold init, folder_structure in Hinit.
  destruct (next_run_dir files d) as [new|]; [|discriminate].
  injection Hinit as _ <-. cbn [hparams save_dir].
  unfold init_hparams.
  rewrite dict_get_coerce, flatten_config_items, dict_get_config.
  - rewrite dict_get_set. by rewrite decide_True.
  - exact (dict_update_NoDup [("save_dir", NStr new)] _
             (dict_update_NoDup [("save_dir", NStr d)] _ Hkeys)).
Qed.

Lemma init_records_run_directory_witness :
  (init quoted ∅ "logs" "kan" "v0"
     [("save_dir", NStr "elsewhere"); ("a", NDict [("save_dir", NInt 1)])]
   = Some (create_run ∅ "logs" "logs/run0",
           {| save_dir := "logs/run0"; version := "v0";
              hparams := [("save_dir", Leaf (SStr "logs/run0"));
                          ("a", Leaf (SStr "{'save_dir': 1}"))];
              metrics := [] |})
   ∧ NoDup [("save_dir", NStr "elsewhere");
            ("a", NDict [("save_dir", NInt 1)])].*1)
  ∧ dict_get [("save_dir", Leaf (SStr "logs/run0"));
              ("a", Leaf (SStr "{'save_dir': 1}"))] "save_dir"
    = Some (Leaf (SStr "logs/run0")).
Proof.
  assert (H1 :
    init quoted ∅ "logs" "kan" "v0"
      [("save_dir", NStr "elsewhere"); ("a", NDict [("save_dir", NInt 1)])]
    = Some (create_run ∅ "logs" "logs/run0",
            {| save_dir := "logs/run0"; version := "v0";
               hparams := [("save_dir", Leaf (SStr "logs/run0"));
                           ("a", Leaf (SStr "{'save_dir': 1}"))];
               metrics := [] |})) by (vm_compute; reflexivity).
  assert (H2 : NoDup [("save_dir", NStr "elsewhere");
                      ("a", NDict [("save_dir", NInt 1)])].*1).
  { apply NoDup_cons. split; [|apply NoDup_singleton].
    intros Hin. apply list_elem_of_singleton in Hin. discriminate. }
  split; [split; [exact H1|exact H2]|].
  exact (init_records_run_directory quoted ∅ _ "logs" "kan" "v0" _ _ H1 H2).
Defined.

End LoggerSpec.

(* ===================================================================== *)
(** * Part IV: properties of the trainer                                  *)
(* ===================================================================== *)

Module TrainerSpec.
Import Trainer.

Section Facts.
Context {Batch Loss Scalar : Type}.
Variable step : Batch → Z → step_result (Loss * list (string * Scalar)).
Variable lr_value : nat → Scalar.
Variable cfg : trainer.

Abbreviation event := (@event Batch Loss Scalar).
Abbreviation state := (@state Loss).
Abbreviation training_step := (training_step step lr_value cfg).
Abbreviation validation_step := (validation_step step).

(** ** The operations, unfolded *)

Lemma training_step_eq b idx (s : state) :
  training_step b idx s =
  match step b idx with
  | Raised msg => ([Call_step false b idx], s, Raise (StepError msg))
  | Returned r =>
      if accumulate_grad_batches cfg =? 0
      then ([Call_step false b idx; Zero_grad; Backward (fst r)],
            set_grad [fst r] s,
            Raise (ZeroDivisionError Accumulate_grad_batches))
      else ([Call_step false b idx; Zero_grad; Backward (fst r)]
              ++ (if global_step s mod accumulate_grad_batches cfg =? 0
                  then [Clip_grad_norm; Opt_step [fst r]] else [])
              ++ [Log_dict (train_logs lr_value (snd r) s) (global_step s)],
            set_grad [fst r] s, Ok tt)
  end.
Proof.
  unfold training_step, call_step, zero_grad, backward, opt_step, py_mod,
    bind, emit, gets, modify, ret, raise. simpl.
  destruct (step b idx) as [r|e]; simpl; [|reflexivity].
  destruct (accumulate_grad_batches cfg =? 0); simpl; [reflexivity|].
  destruct (global_step s mod accumulate_grad_batches cfg =? 0); reflexivity.
Qed.


Section Fit.
Variables (max_epochs max_steps : Z).
Variables (validation_every_n_steps save_every_n_steps : Z).
Variables (train_dataloader val_dataloader : list Batch).

Abbreviation next_validation_batch := (next_validation_batch val_dataloader).
Abbreviation step_lr_scheduler :=
  (@Trainer.step_lr_scheduler Batch Loss Scalar cfg).
Abbreviation epoch_lr_scheduler :=
  (@Trainer.epoch_lr_scheduler Batch Loss Scalar cfg).
Abbreviation save_checkpoint :=
  (@Trainer.save_checkpoint Batch Loss Scalar save_every_n_steps).
Abbreviation validate :=
  (validate step validation_every_n_steps val_dataloader).
Abbreviation train_loop :=
  (train_loop step lr_value cfg max_steps validation_every_n_steps
     save_every_n_steps val_dataloader).
Abbreviation epoch_loop :=
  (epoch_loop step lr_value cfg max_steps validation_every_n_steps
     save_every_n_steps train_dataloader val_dataloader).
Abbreviation fit :=
  (fit step lr_value cfg max_epochs max_steps validation_every_n_steps
     save_every_n_steps train_dataloader val_dataloader).

Lemma step_lr_scheduler_eq (s : state) :
  step_lr_scheduler s =
  match lr_step cfg with
  | LrNone => ([], s, Ok tt)
  | LrStr p => if String.eqb p "epoch" then ([], s, Ok tt)
               else ([], s, Raise TypeError)
  | LrInt n =>
      if n =? 0 then ([], s, Raise (ZeroDivisionError Lr_step))
      else if global_step s mod n =? 0
           then if has_lr_scheduler cfg
                then ([Lr_scheduler_step],
                      set_sched_steps (S (sched_steps s)) s, Ok tt)
                else ([], s, Raise AttributeError)
           else ([], s, Ok tt)
  end.
Proof.
  unfold step_lr_scheduler, lr_scheduler_step, py_mod, bind, emit, gets,
    modify, ret, raise.
  destruct (lr_step cfg) as [p| |n]; simpl; [|reflexivity|].
  - destruct (String.eqb p "epoch"); reflexivity.
  - destruct (n =? 0); simpl; [reflexivity|].
    destruct (global_step s mod n =? 0); [|reflexivity].
    destruct (has_lr_scheduler cfg); reflexivity.
Qed.

Lemma epoch_lr_scheduler_eq (s : state) :
  epoch_lr_scheduler s =
  match lr_step cfg with
  | LrStr p =>
      if String.eqb p "epoch"
      then if has_lr_scheduler cfg
           then ([Lr_scheduler_step],
                 set_sched_steps (S (sched_steps s)) s, Ok tt)
           else ([], s, Raise AttributeError)
      else ([], s, Ok tt)
  | _ => ([], s, Ok tt)
  end.
Proof.
  unfold epoch_lr_scheduler, lr_scheduler_step, bind, emit, modify, ret, raise.
  destruct (lr_step cfg) as [p| |n]; simpl; try reflexivity.
  destruct (String.eqb p "epoch"); [|reflexivity].
  destruct (has_lr_scheduler cfg); reflexivity.
Qed.

Lemma save_checkpoint_eq (s : state) :
  save_checkpoint s =
  if save_every_n_steps =? 0
  then ([], s, Raise (ZeroDivisionError Save_every_n_steps))
  else if global_step s mod save_every_n_steps =? 0
       then ([Save_model (global_step s)], s, Ok tt)
       else ([], s, Ok tt).
Proof.
  unfold save_checkpoint, py_mod, bind, emit, gets, ret, raise. simpl.
  destruct (save_every_n_steps =? 0); simpl; [reflexivity|].
  destruct (global_step s mod save_every_n_steps =? 0); reflexivity.
Qed.

Lemma validate_eq idx (s : state) :
  validate idx s =
  if validation_every_n_steps =? 0
  then ([], s, Raise (ZeroDivisionError Validation_every_n_steps))
  else if idx mod validation_every_n_steps =? 0
       then match nth_error val_dataloader
                    (val_pulled s mod length val_dataloader)%nat with
            | None => ([], s, Raise StopIteration)
            | Some b =>
                let s' := set_val_pulled (S (val_pulled s)) s in
                match step b idx with
                | Raised msg =>
                    ([Model_eval; Call_step true b idx], s',
                     Raise (StepError msg))
                | Returned r =>
                    ([Model_eval; Call_step true b idx;
                      Log_dict (prefix_keys "val/" (snd r)) (global_step s);
                      Model_train], s', Ok tt)
                end
            end
       else ([], s, Ok tt).
Proof.
  unfold validate, Trainer.next_validation_batch, validation_step,
    validation_log, call_step, py_mod, bind, emit, gets, modify, ret, raise.
  simpl.
  destruct (validation_every_n_steps =? 0); simpl; [reflexivity|].
  destruct (idx mod validation_every_n_steps =? 0); [|reflexivity].
  destruct (nth_error _ _) as [b|]; simpl; [|reflexivity].
  destruct (step b idx) as [r|e]; reflexivity.
Qed.

Lemma train_loop_cons b rest idx (s : state) :
  train_loop (b :: rest) idx s =
  match training_step b idx s with
  | (t1, s1, Raise e) => (t1, s1, Raise e)
  | (t1, s1, Ok _) =>
    match step_lr_scheduler (set_global_step (global_step s1 + 1) s1) with
    | (t2, s2, Raise e) => (t1 ++ t2, s2, Raise e)
    | (t2, s2, Ok _) =>
      if global_step s2 >? max_steps then (t1 ++ t2, s2, Ok true)
      else
        match save_checkpoint s2 with
        | (t3, s3, Raise e) => (t1 ++ t2 ++ t3, s3, Raise e)
        | (t3, s3, Ok _) =>
          match validate idx s3 with
          | (t4, s4, Raise e) => (t1 ++ t2 ++ t3 ++ t4, s4, Raise e)
          | (t4, s4, Ok _) =>
            match train_loop rest (idx + 1) s4 with
            | (t5, s5, r) => (t1 ++ t2 ++ t3 ++ t4 ++ t5, s5, r)
            end
          end
        end
    end
  end.
Proof.
  simpl. unfold bind at 1.
  destruct (training_step b idx s) as [[t1 s1] [[]|e]]; [|reflexivity].
  unfold bind at 1. unfold modify at 1. simpl.
  unfold bind at 1.
  destruct (step_lr_scheduler _) as [[t2 s2] [[]|e]]; [|reflexivity].
  unfold bind at 1. unfold gets at 1. simpl.
  destruct (global_step s2 >? max_steps).
  { unfold ret. by rewrite app_nil_r. }
  unfold bind at 1.
  destruct (save_checkpoint s2) as [[t3 s3] [[]|e]]; [|reflexivity].
  unfold bind at 1.
  destruct (validate idx s3) as [[t4 s4] [[]|e]]; [|reflexivity].
  destruct (train_loop rest (idx + 1) s4) as [[t5 s5] r]. reflexivity.
Qed.

Lemma epoch_loop_S n epoch (s : state) :
  epoch_loop (S n) epoch s =
  match train_loop train_dataloader 0 s with
  | (t1, s1, Raise e) => (Print_epoch epoch :: t1, s1, Raise e)
  | (t1, s1, Ok stop) =>
    match epoch_lr_scheduler s1 with
    | (t2, s2, Raise e) => (Print_epoch epoch :: t1 ++ t2, s2, Raise e)
    | (t2, s2, Ok _) =>
      if stop then (Print_epoch epoch :: t1 ++ t2, s2, Ok tt)
      else match epoch_loop n (epoch + 1) s2 with
           | (t3, s3, r) => (Print_epoch epoch :: t1 ++ t2 ++ t3, s3, r)
           end
    end
  end.
Proof.
  simpl. unfold bind at 1. unfold emit at 1. simpl.
  unfold bind at 1.
  destruct (train_loop train_dataloader 0 s) as [[t1 s1] [stop|e]];
    [|reflexivity].
  unfold bind at 1.
  destruct (epoch_lr_scheduler s1) as [[t2 s2] [[]|e]]; [|reflexivity].
  destruct stop.
  { unfold ret. by rewrite app_nil_r. }
  destruct (epoch_loop n (epoch + 1) s2) as [[t3 s3] r]. reflexivity.
Qed.

Lemma fit_eq (s : state) :
  fit s = epoch_loop (Z.to_nat max_epochs) 0
            (set_val_pulled 0 (set_global_step 0 s)).
Proof.
  unfold fit, Trainer.fit, bind, modify. simpl.
  by destruct (epoch_loop _ _ _) as [[t s'] r].
Qed.


(** ** Properties of every event of a run *)

(** A property of events that holds along every operation of the loop body
    holds along [fit]. *)
Section Every.
Variable P : event → Prop.
Hypothesis P_training_step : ∀ b idx (s : state),
  Forall P (trace_of (training_step b idx s)).
Hypothesis P_step_lr_scheduler : ∀ s : state,
  Forall P (trace_of (step_lr_scheduler s)).
Hypothesis P_save_checkpoint : ∀ s : state,
  Forall P (trace_of (save_checkpoint s)).
Hypothesis P_validate : ∀ idx (s : state),
  Forall P (trace_of (validate idx s)).

Lemma train_loop_every batches : ∀ idx (s : state),
  Forall P (trace_of (train_loop batches idx s)).
Proof.
  induction batches as [|b rest IH]; intros idx s; [constructor|].
  rewrite train_loop_cons.
  pose proof (P_training_step b idx s) as H1.
  destruct (training_step b idx s) as [[t1 s1] [[]|e]]; [|exact H1].
  pose proof (P_step_lr_scheduler (set_global_step (global_step s1 + 1) s1))
    as H2.
  destruct (step_lr_scheduler _) as [[t2 s2] [[]|e]];
    [|by apply Forall_app].
  destruct (global_step s2 >? max_steps); [by apply Forall_app|].
  pose proof (P_save_checkpoint s2) as H3.
  destruct (save_checkpoint s2) as [[t3 s3] [[]|e]];
    [|unfold trace_of in *; simpl in *; by rewrite !Forall_app].
  pose proof (P_validate idx s3) as H4.
  destruct (validate idx s3) as [[t4 s4] [[]|e]];
    [|unfold trace_of in *; simpl in *; by rewrite !Forall_app].
  pose proof (IH (idx + 1) s4) as H5.
  destruct (train_loop rest (idx + 1) s4) as [[t5 s5] r].
  unfold trace_of in *; simpl in *. by rewrite !Forall_app.
Qed.

Hypothesis P_print_epoch : ∀ epoch, P (Print_epoch epoch).
Hypothesis P_epoch_lr_scheduler : ∀ s : state,
  Forall P (trace_of (epoch_lr_scheduler s)).

Lemma epoch_loop_every n : ∀ epoch (s : state),
  Forall P (trace_of (epoch_loop n epoch s)).
Proof.
  induction n as [|n IH]; intros epoch s; [constructor|].
  rewrite epoch_loop_S.
  pose proof (train_loop_every train_dataloader 0 s) as H1.
  destruct (train_loop train_dataloader 0 s) as [[t1 s1] [stop|e]];
    [|by constructor].
  pose proof (P_epoch_lr_scheduler s1) as H2.
  destruct (epoch_lr_scheduler s1) as [[t2 s2] [[]|e]];
    [|by constructor; [|apply Forall_app]].
  destruct stop; [by constructor; [|apply Forall_app]|].
  pose proof (IH (epoch + 1) s2) as H3.
  destruct (epoch_loop n (epoch + 1) s2) as [[t3 s3] r].
  unfold trace_of in *; simpl in *.
  constructor; [done|]. by rewrite !Forall_app.
Qed.

Lemma fit_every (s : state) : Forall P (trace_of (fit s)).
Proof. rewrite fit_eq. apply epoch_loop_every. Qed.

End Every.

(** ** Gradients *)

Lemma training_step_single_batch b idx (s : state) :
  Forall (single_batch_update step) (trace_of (training_step b idx s)).
Proof.
  rewrite training_step_eq.
  destruct (step b idx) as [r|msg] eqn:Hstep; [|by repeat constructor].
  destruct (_ =? 0); [by repeat constructor|].
  destruct (_ =? 0); repeat constructor. by exists b, idx, r.
Qed.

Lemma step_lr_scheduler_single_batch (s : state) :
  Forall (single_batch_update step) (trace_of (step_lr_scheduler s)).
Proof.
  rewrite step_lr_scheduler_eq. repeat case_match; by repeat constructor.
Qed.

Lemma epoch_lr_scheduler_single_batch (s : state) :
  Forall (single_batch_update step) (trace_of (epoch_lr_scheduler s)).
Proof.
  rewrite epoch_lr_scheduler_eq. repeat case_match; by repeat constructor.
Qed.

Lemma save_checkpoint_single_batch (s : state) :
  Forall (single_batch_update step) (trace_of (save_checkpoint s)).
Proof.
  rewrite save_checkpoint_eq. repeat case_match; by repeat constructor.
Qed.

Lemma validate_single_batch idx (s : state) :
  Forall (single_batch_update step) (trace_of (validate idx s)).
Proof.
  rewrite validate_eq. repeat case_match; by repeat constructor.
Qed.

Lemma fit_single_batch (s : state) :
  Forall (single_batch_update step) (trace_of (fit s)).
Proof.
  apply fit_every.
  - apply training_step_single_batch.
  - apply step_lr_scheduler_single_batch.
  - apply save_checkpoint_single_batch.
  - apply validate_single_batch.
  - done.
  - apply epoch_lr_scheduler_single_batch.
Qed.


(** ** The global step counter *)

Lemma training_step_global_step b idx (s : state) :
  global_step (final_state (training_step b idx s)) = global_step s.
Proof. rewrite training_step_eq. by repeat case_match. Qed.

Lemma step_lr_scheduler_global_step (s : state) :
  global_step (final_state (step_lr_scheduler s)) = global_step s.
Proof. rewrite step_lr_scheduler_eq. by repeat case_match. Qed.

Lemma epoch_lr_scheduler_global_step (s : state) :
  global_step (final_state (epoch_lr_scheduler s)) = global_step s.
Proof. rewrite epoch_lr_scheduler_eq. by repeat case_match. Qed.

Lemma save_checkpoint_global_step (s : state) :
  global_step (final_state (save_checkpoint s)) = global_step s.
Proof. rewrite save_checkpoint_eq. by repeat case_match. Qed.

Lemma validate_global_step idx (s : state) :
  global_step (final_state (validate idx s)) = global_step s.
Proof. rewrite validate_eq. by repeat case_match. Qed.

(** ** Scheduler-only traces *)

Abbreviation sched_only t := (forallb is_lr_scheduler_step t = true).

Lemma step_lr_scheduler_sched_only (s : state) :
  sched_only (trace_of (step_lr_scheduler s)).
Proof. rewrite step_lr_scheduler_eq. by repeat case_match. Qed.

Lemma epoch_lr_scheduler_sched_only (s : state) :
  sched_only (trace_of (epoch_lr_scheduler s)).
Proof. rewrite epoch_lr_scheduler_eq. by repeat case_match. Qed.

Lemma sched_only_app (t1 t2 : list event) :
  sched_only t1 → sched_only t2 → sched_only (t1 ++ t2).
Proof. intros H1 H2. by rewrite forallb_app, H1, H2. Qed.

Lemma sched_only_Forall (t : list event) :
  sched_only t → Forall (λ e, e = Lr_scheduler_step) t.
Proof.
  induction t as [|e t IH]; simpl; [constructor|].
  intros [He Ht]%andb_prop. constructor; [|by apply IH].
  by destruct e.
Qed.

(** ** Stopping at [max_steps] *)

Abbreviation under t :=
  (forallb (λ e, negb (over_limit max_steps e)) t = true).
Abbreviation halts t := (halts_after_limit max_steps t = true).

Lemma train_logs_has_lr (logs : list (string * Scalar)) (s : state) :
  dict_get (train_logs lr_value logs s) "train/lr"
  = Some (lr_value (sched_steps s)).
Proof.
  unfold train_logs.
  induction logs as [|[k v] logs IH]; [reflexivity|].
  simpl. destruct (String.eqb k "lr") eqn:Hk; simpl;
    change (String.append EmptyString k) with k; by rewrite Hk.
Qed.

Lemma val_logs_no_lr (logs : list (string * Scalar)) :
  dict_get (prefix_keys "val/" logs) "train/lr" = None.
Proof.
  induction logs as [|[k v] logs IH]; [reflexivity|].
  exact IH.
Qed.

Lemma sched_only_under (t : list event) : sched_only t → under t.
Proof.
  induction t as [|e t IH]; simpl; [done|].
  intros [He Ht]%andb_prop. rewrite (IH Ht). by destruct e.
Qed.

Lemma under_app (t1 t2 : list event) : under t1 → under t2 → under (t1 ++ t2).
Proof. intros H1 H2. by rewrite forallb_app, H1, H2. Qed.

Lemma halts_app_under (t1 t2 : list event) :
  under t1 →
  halts_after_limit max_steps (t1 ++ t2) = halts_after_limit max_steps t2.
Proof.
  induction t1 as [|e t1 IH]; simpl; [done|].
  intros [He Ht]%andb_prop.
  apply negb_true_iff in He. rewrite He. by apply IH.
Qed.

Lemma halts_under (t : list event) : under t → halts t.
Proof.
  intros H. rewrite <- (app_nil_r t). by rewrite halts_app_under.
Qed.

Lemma halts_app_sched (t1 t2 : list event) :
  halts t1 → sched_only t2 → halts (t1 ++ t2).
Proof.
  intros H1 H2. induction t1 as [|e t1 IH]; simpl in *.
  - by apply halts_under, sched_only_under.
  - destruct (over_limit max_steps e); [by apply sched_only_app|by apply IH].
Qed.

(** The last thing a training step does is log at the current step;
    nothing before that is a training log. *)
Lemma training_step_log b idx (s : state) :
  match training_step b idx s with
  | (t, _, Ok _) =>
      ∃ pre p, t = pre ++ [Log_dict p (global_step s)] ∧ under pre
               ∧ dict_get p "train/lr" ≠ None
  | (t, _, Raise _) => under t
  end.
Proof.
  rewrite training_step_eq.
  destruct (step b idx) as [r|msg]; [|done].
  destruct (_ =? 0); [done|].
  eexists (_ ++ _), _. rewrite <- app_assoc. split; [reflexivity|].
  split; [by destruct (_ =? 0)|].
  by rewrite train_logs_has_lr.
Qed.

Lemma save_checkpoint_under (s : state) :
  under (trace_of (save_checkpoint s)).
Proof. rewrite save_checkpoint_eq. by repeat case_match. Qed.

Lemma validate_under idx (s : state) : under (trace_of (validate idx s)).
Proof.
  rewrite validate_eq. repeat case_match; try done.
  unfold trace_of, over_limit, train_log_step. simpl.
  by rewrite val_logs_no_lr.
Qed.

Lemma over_limit_log p g :
  dict_get p "train/lr" ≠ None →
  over_limit max_steps (Log_dict p g : event) = (max_steps <? g + 1).
Proof.
  intros Hp. unfold over_limit, train_log_step.
  by destruct (dict_get p "train/lr").
Qed.

Lemma train_loop_halts batches : ∀ idx (s : state),
  match train_loop batches idx s with
  | (t, _, Ok false) => under t
  | (t, _, _) => halts t
  end.
Proof.
  induction batches as [|b rest IH]; intros idx s; [done|].
  rewrite train_loop_cons.
  pose proof (training_step_log b idx s) as H1.
  pose proof (training_step_global_step b idx s) as G1.
  destruct (training_step b idx s) as [[t1 s1] [[]|e]];
    [|by apply halts_under].
  destruct H1 as (pre & p & -> & Hpre & Hp).
  unfold final_state in G1. simpl in G1.
  pose proof (step_lr_scheduler_sched_only
                (set_global_step (global_step s1 + 1) s1)) as H2.
  pose proof (step_lr_scheduler_global_step
                (set_global_step (global_step s1 + 1) s1)) as G2.
  destruct (step_lr_scheduler _) as [[t2 s2] r2].
  unfold trace_of, final_state in H2, G2. simpl in H2, G2.
  assert (Hstop : halts ((pre ++ [Log_dict p (global_step s)]) ++ t2)).
  { rewrite <- app_assoc, halts_app_under by done. simpl.
    destruct (over_limit _ _); [done|].
    by apply halts_under, sched_only_under. }
  destruct r2 as [[]|e]; [|done].
  destruct (global_step s2 >? max_steps) eqn:Hgt; [done|].
  assert (U12 : under ((pre ++ [Log_dict p (global_step s)]) ++ t2)).
  { apply under_app; [|by apply sched_only_under].
    apply under_app; [done|]. simpl.
    rewrite over_limit_log by done.
    rewrite andb_true_r, negb_true_iff, Z.ltb_ge. lia. }
  pose proof (save_checkpoint_under s2) as H3.
  destruct (save_checkpoint s2) as [[t3 s3] r3].
  unfold trace_of in H3. simpl in H3.
  assert (U123 : under ((pre ++ [Log_dict p (global_step s)]) ++ t2 ++ t3)).
  { rewrite app_assoc. by apply under_app. }
  destruct r3 as [[]|e]; [|by apply halts_under].
  pose proof (validate_under idx s3) as H4.
  destruct (validate idx s3) as [[t4 s4] r4].
  unfold trace_of in H4. simpl in H4.
  assert (U1234 :
    under ((pre ++ [Log_dict p (global_step s)]) ++ t2 ++ t3 ++ t4)).
  { replace ((pre ++ [Log_dict p (global_step s)]) ++ t2 ++ t3 ++ t4)
      with (((pre ++ [Log_dict p (global_step s)]) ++ t2 ++ t3) ++ t4)
      by (by rewrite <- !app_assoc).
    by apply under_app. }
  destruct r4 as [[]|e]; [|by apply halts_under].
  pose proof (IH (idx + 1) s4) as H5.
  destruct (train_loop rest (idx + 1) s4) as [[t5 s5] r5].
  replace ((pre ++ [Log_dict p (global_step s)]) ++ t2 ++ t3 ++ t4 ++ t5)
    with (((pre ++ [Log_dict p (global_step s)]) ++ t2 ++ t3 ++ t4) ++ t5)
    by (by rewrite <- !app_assoc).
  destruct r5 as [[]|e].
  - by rewrite halts_app_under.
  - by apply under_app.
  - by rewrite halts_app_under.
Qed.

Lemma epoch_loop_halts n : ∀ epoch (s : state),
  halts (trace_of (epoch_loop n epoch s)).
Proof.
  induction n as [|n IH]; intros epoch s; [done|].
  rewrite epoch_loop_S.
  pose proof (train_loop_halts train_dataloader 0 s) as H1.
  destruct (train_loop train_dataloader 0 s) as [[t1 s1] [stop|e]];
    [|done].
  pose proof (epoch_lr_scheduler_sched_only s1) as H2.
  destruct (epoch_lr_scheduler s1) as [[t2 s2] r2].
  unfold trace_of in H2. simpl in H2.
  destruct stop.
  - assert (halts (Print_epoch epoch :: t1 ++ t2))
      by (by apply halts_app_sched).
    by destruct r2 as [[]|e].
  - assert (under (Print_epoch epoch :: t1 ++ t2))
      by (by apply under_app; [|apply sched_only_under]).
    destruct r2 as [[]|e]; [|by apply halts_under].
    pose proof (IH (epoch + 1) s2) as H3.
    destruct (epoch_loop n (epoch + 1) s2) as [[t3 s3] r3].
    unfold trace_of in H3 |- *. simpl fst in H3 |- *.
    replace (Print_epoch epoch :: t1 ++ t2 ++ t3)
      with ((Print_epoch epoch :: t1 ++ t2) ++ t3)
      by (simpl; by rewrite <- app_assoc).
    by rewrite halts_app_under.
Qed.

Lemma halts_split (pre post : list event) p g :
  halts (pre ++ Log_dict p g :: post) →
  dict_get p "train/lr" ≠ None → max_steps < g + 1 →
  sched_only post.
Proof.
  intros H Hp Hg. induction pre as [|e pre IH]; simpl in H.
  - rewrite over_limit_log in H by done.
    apply Z.ltb_lt in Hg. by rewrite Hg in H.
  - destruct (over_limit max_steps e); [|by apply IH].
    rewrite forallb_app in H. simpl in H.
    by rewrite andb_false_r in H.
Qed.


(** ** Checkpoints *)

Abbreviation multiples l :=
  (List.filter (λ g, g mod save_every_n_steps =? 0) l).

Lemma training_step_saved b idx (s : state) :
  saved_steps (trace_of (training_step b idx s)) = [].
Proof. rewrite training_step_eq. by repeat case_match. Qed.

Lemma step_lr_scheduler_saved (s : state) :
  saved_steps (trace_of (step_lr_scheduler s)) = [].
Proof. rewrite step_lr_scheduler_eq. by repeat case_match. Qed.

Lemma epoch_lr_scheduler_saved (s : state) :
  saved_steps (trace_of (epoch_lr_scheduler s)) = [].
Proof. rewrite epoch_lr_scheduler_eq. by repeat case_match. Qed.

Lemma validate_saved idx (s : state) :
  saved_steps (trace_of (validate idx s)) = [].
Proof. rewrite validate_eq. by repeat case_match. Qed.

Lemma save_checkpoint_saved (s : state) :
  match save_checkpoint s with
  | (t, _, Ok _) => saved_steps t = multiples [global_step s]
  | _ => True
  end.
Proof.
  rewrite save_checkpoint_eq. destruct (_ =? 0); [done|].
  simpl. by destruct (_ =? 0).
Qed.

Lemma saved_steps_app (t1 t2 : list event) :
  saved_steps (t1 ++ t2) = saved_steps t1 ++ saved_steps t2.
Proof. apply flat_map_app. Qed.

(** While the counter stays within [max_steps], the inner loop runs through
    all its batches and saves at the multiples among the steps it takes. *)
Lemma train_loop_saved batches : ∀ idx (s : state),
  global_step s + Z.of_nat (length batches) ≤ max_steps →
  match train_loop batches idx s with
  | (t, s', Ok stop) =>
      stop = false
      ∧ global_step s' = global_step s + Z.of_nat (length batches)
      ∧ saved_steps t
        = multiples (seqZ (global_step s + 1) (Z.of_nat (length batches)))
  | _ => True
  end.
Proof.
  induction batches as [|b rest IH]; intros idx s Hle.
  { simpl. split; [done|]. split; [lia|done]. }
  rewrite train_loop_cons.
  pose proof (training_step_saved b idx s) as H1.
  pose proof (training_step_global_step b idx s) as G1.
  destruct (training_step b idx s) as [[t1 s1] [[]|e]]; [|done].
  pose proof (step_lr_scheduler_saved
                (set_global_step (global_step s1 + 1) s1)) as H2.
  pose proof (step_lr_scheduler_global_step
                (set_global_step (global_step s1 + 1) s1)) as G2.
  destruct (step_lr_scheduler _) as [[t2 s2] [[]|e]]; [|done].
  unfold trace_of, final_state in *. simpl in H1, G1, H2, G2, Hle.
  destruct (global_step s2 >? max_steps) eqn:Hgt; [lia|].
  pose proof (save_checkpoint_saved s2) as H3.
  pose proof (save_checkpoint_global_step s2) as G3.
  destruct (save_checkpoint s2) as [[t3 s3] [[]|e]]; [|done].
  pose proof (validate_saved idx s3) as H4.
  pose proof (validate_global_step idx s3) as G4.
  destruct (validate idx s3) as [[t4 s4] [[]|e]]; [|done].
  unfold trace_of, final_state in *. simpl in G3, H4, G4.
  pose proof (IH (idx + 1) s4) as H5.
  destruct (train_loop rest (idx + 1) s4) as [[t5 s5] [stop|e]]; [|done].
  destruct H5 as (-> & G5 & H5); [lia|].
  split; [done|]. split; [simpl length; lia|].
  rewrite !saved_steps_app, H1, H2, H3, H4, H5. simpl app.
  rewrite (seqZ_cons (global_step s + 1)) by (simpl length; lia).
  replace (Z.pred (Z.of_nat (length (b :: rest))))
    with (Z.of_nat (length rest)) by (simpl length; lia).
  replace (Z.succ (global_step s + 1)) with (global_step s4 + 1) by lia.
  replace (global_step s2) with (global_step s + 1) by lia.
  simpl. by destruct (_ =? 0).
Qed.

Lemma epoch_loop_saved n : ∀ epoch (s : state),
  global_step s + Z.of_nat (n * length train_dataloader) ≤ max_steps →
  match epoch_loop n epoch s with
  | (t, s', Ok _) =>
      global_step s'
      = global_step s + Z.of_nat (n * length train_dataloader)
      ∧ saved_steps t
        = multiples (seqZ (global_step s + 1)
                       (Z.of_nat (n * length train_dataloader)))
  | _ => True
  end.
Proof.
  induction n as [|n IH]; intros epoch s Hle.
  { simpl. split; [lia|done]. }
  rewrite epoch_loop_S.
  pose proof (train_loop_saved train_dataloader 0 s) as H1.
  destruct (train_loop train_dataloader 0 s) as [[t1 s1] [stop|e]]; [|done].
  destruct H1 as (-> & G1 & H1); [lia|].
  pose proof (epoch_lr_scheduler_saved s1) as H2.
  pose proof (epoch_lr_scheduler_global_step s1) as G2.
  destruct (epoch_lr_scheduler s1) as [[t2 s2] [[]|e]]; [|done].
  unfold trace_of, final_state in *. simpl in H2, G2.
  pose proof (IH (epoch + 1) s2) as H3.
  destruct (epoch_loop n (epoch + 1) s2) as [[t3 s3] [[]|e]]; [|done].
  destruct H3 as (G3 & H3); [lia|].
  split; [lia|].
  change (Print_epoch epoch :: t1 ++ t2 ++ t3)
    with ([Print_epoch epoch] ++ t1 ++ t2 ++ t3).
  rewrite !saved_steps_app, H1, H2, H3. simpl app.
  replace (Z.of_nat (S n * length train_dataloader))
    with (Z.of_nat (length train_dataloader)
          + Z.of_nat (n * length train_dataloader)) by lia.
  rewrite seqZ_app, List.filter_app by lia.
  by replace (global_step s + 1 + Z.of_nat (length train_dataloader))
    with (global_step s2 + 1) by lia.
Qed.

Lemma mod_0_divide (a b : Z) : a mod b = 0 ↔ (b | a).
Proof.
  destruct (decide (b = 0)) as [->|Hb]; [|by apply Z.mod_divide].
  rewrite Z.mod_0_r. split.
  - intros ->. apply Z.divide_0_r.
  - by intros ?%Z.divide_0_l.
Qed.

(** ** The epoch-wise scheduler *)

Lemma closes_app_inner (t1 t2 : list event) :
  Forall inner t1 →
  scheduler_closes_epochs true (t1 ++ t2) = scheduler_closes_epochs true t2.
Proof.
  induction 1 as [|e t1 [He1 He2] _ IH]; [done|].
  simpl. by destruct e.
Qed.

Lemma closes_count (t : list event) : ∀ in_epoch,
  scheduler_closes_epochs in_epoch t = true →
  count is_lr_scheduler_step t
  = (count is_print_epoch t + if in_epoch then 1 else 0)%nat.
Proof.
  unfold count.
  induction t as [|e t IH]; intros in_epoch H; simpl in H.
  - by destruct in_epoch.
  - destruct e; simpl;
      try (apply andb_prop in H as [H1 H2]; rewrite (IH _ H2);
           destruct in_epoch; simpl in *; done || lia).
Qed.

Section EpochWise.
Hypothesis Hepoch : lr_step cfg = LrStr "epoch".
Hypothesis Hsched : has_lr_scheduler cfg = true.

Lemma train_loop_inner batches idx (s : state) :
  Forall inner (trace_of (train_loop batches idx s)).
Proof.
  apply train_loop_every.
  - intros. rewrite training_step_eq.
    repeat case_match; by repeat constructor.
  - intros. rewrite step_lr_scheduler_eq, Hepoch. by constructor.
  - intros. rewrite save_checkpoint_eq.
    repeat case_match; by repeat constructor.
  - intros. rewrite validate_eq.
    repeat case_match; by repeat constructor.
Qed.

Lemma epoch_loop_closes n : ∀ epoch (s : state),
  match epoch_loop n epoch s with
  | (t, _, Ok _) => scheduler_closes_epochs false t = true
  | _ => True
  end.
Proof.
  induction n as [|n IH]; intros epoch s; [done|].
  rewrite epoch_loop_S.
  pose proof (train_loop_inner train_dataloader 0 s) as H1.
  destruct (train_loop train_dataloader 0 s) as [[t1 s1] [stop|e]]; [|done].
  unfold trace_of in H1. simpl in H1.
  rewrite epoch_lr_scheduler_eq, Hepoch, Hsched. simpl.
  destruct stop.
  - change (scheduler_closes_epochs true (t1 ++ [Lr_scheduler_step]) = true).
    by rewrite closes_app_inner.
  - pose proof (IH (epoch + 1) (set_sched_steps (S (sched_steps s1)) s1))
      as H3.
    destruct (epoch_loop n (epoch + 1) _) as [[t3 s3] [[]|e]]; [|done].
    change (scheduler_closes_epochs true (t1 ++ Lr_scheduler_step :: t3)
            = true).
    by rewrite closes_app_inner.
Qed.

End EpochWise.


(** ** Division by zero *)

Lemma training_step_no_zero_division b idx (s : state) :
  accumulate_grad_batches cfg ≠ 0 →
  ¬ zero_division (outcome (training_step b idx s)).
Proof.
  intros Hacc%Z.eqb_neq. rewrite training_step_eq, Hacc.
  destruct (step b idx); simpl; by intros [].
Qed.

Lemma step_lr_scheduler_no_zero_division (s : state) :
  ¬ zero_division (outcome (step_lr_scheduler s)).
Proof. rewrite step_lr_scheduler_eq. repeat case_match; simpl; by intros []. Qed.

Lemma epoch_lr_scheduler_no_zero_division (s : state) :
  ¬ zero_division (outcome (epoch_lr_scheduler s)).
Proof. rewrite epoch_lr_scheduler_eq. repeat case_match; simpl; by intros []. Qed.

Lemma save_checkpoint_no_zero_division (s : state) :
  save_every_n_steps ≠ 0 →
  ¬ zero_division (outcome (save_checkpoint s)).
Proof.
  intros Hsave%Z.eqb_neq. rewrite save_checkpoint_eq, Hsave.
  destruct (_ mod _ =? 0); simpl; by intros [].
Qed.

Lemma validate_no_zero_division idx (s : state) :
  validation_every_n_steps ≠ 0 →
  ¬ zero_division (outcome (validate idx s)).
Proof.
  intros Hval%Z.eqb_neq. rewrite validate_eq, Hval.
  repeat case_match; simpl; by intros [].
Qed.

Section NoZeroDivision.
Hypothesis Hacc : accumulate_grad_batches cfg ≠ 0.
Hypothesis Hdiv :
  1 ≤ max_steps → save_every_n_steps ≠ 0 ∧ validation_every_n_steps ≠ 0.

Lemma train_loop_no_zero_division batches : ∀ idx (s : state),
  0 ≤ global_step s →
  match train_loop batches idx s with
  | (_, s', r) => ¬ zero_division r ∧ 0 ≤ global_step s'
  end.
Proof.
  induction batches as [|b rest IH]; intros idx s Hs.
  { simpl. split; [by intros []|done]. }
  rewrite train_loop_cons.
  pose proof (training_step_no_zero_division b idx s Hacc) as H1.
  pose proof (training_step_global_step b idx s) as G1.
  destruct (training_step b idx s) as [[t1 s1] r1].
  unfold outcome, final_state in H1, G1. simpl in H1, G1.
  destruct r1 as [[]|e]; [|split; [done|lia]].
  pose proof (step_lr_scheduler_no_zero_division
                (set_global_step (global_step s1 + 1) s1)) as H2.
  pose proof (step_lr_scheduler_global_step
                (set_global_step (global_step s1 + 1) s1)) as G2.
  destruct (step_lr_scheduler _) as [[t2 s2] r2].
  unfold outcome, final_state in H2, G2. simpl in H2, G2.
  destruct r2 as [[]|e]; [|split; [done|lia]].
  destruct (global_step s2 >? max_steps) eqn:Hgt;
    [split; [by intros []|lia]|].
  destruct Hdiv as [Hsave Hval]; [lia|].
  pose proof (save_checkpoint_no_zero_division s2 Hsave) as H3.
  pose proof (save_checkpoint_global_step s2) as G3.
  destruct (save_checkpoint s2) as [[t3 s3] r3].
  unfold outcome, final_state in H3, G3. simpl in H3, G3.
  destruct r3 as [[]|e]; [|split; [done|lia]].
  pose proof (validate_no_zero_division idx s3 Hval) as H4.
  pose proof (validate_global_step idx s3) as G4.
  destruct (validate idx s3) as [[t4 s4] r4].
  unfold outcome, final_state in H4, G4. simpl in H4, G4.
  destruct r4 as [[]|e]; [|split; [done|lia]].
  pose proof (IH (idx + 1) s4) as H5.
  destruct (train_loop rest (idx + 1) s4) as [[t5 s5] r5].
  apply H5. lia.
Qed.

Lemma epoch_loop_no_zero_division n : ∀ epoch (s : state),
  0 ≤ global_step s →
  ¬ zero_division (outcome (epoch_loop n epoch s)).
Proof.
  induction n as [|n IH]; intros epoch s Hs; [by intros []|].
  rewrite epoch_loop_S.
  pose proof (train_loop_no_zero_division train_dataloader 0 s Hs) as H1.
  destruct (train_loop train_dataloader 0 s) as [[t1 s1] r1].
  destruct H1 as [H1 G1].
  destruct r1 as [stop|e]; [|done].
  pose proof (epoch_lr_scheduler_no_zero_division s1) as H2.
  pose proof (epoch_lr_scheduler_global_step s1) as G2.
  destruct (epoch_lr_scheduler s1) as [[t2 s2] r2].
  unfold outcome, final_state in H2, G2. simpl in H2, G2.
  destruct r2 as [[]|e]; [|done].
  destruct stop; [by intros []|].
  pose proof (IH (epoch + 1) s2) as H3.
  destruct (epoch_loop n (epoch + 1) s2) as [[t3 s3] r3].
  apply H3. lia.
Qed.

End NoZeroDivision.

(** ** The first batch *)

(** With [lr_step_safe], the step-wise scheduler returns. *)
Lemma step_lr_scheduler_safe (s : state) :
  lr_step_safe cfg → outcome (step_lr_scheduler s) = Ok tt.
Proof.
  unfold lr_step_safe. rewrite step_lr_scheduler_eq.
  destruct (lr_step cfg) as [p| |n].
  - by intros ->.
  - done.
  - intros [Hn%Z.eqb_neq ->]. rewrite Hn. by destruct (_ mod _ =? 0).
Qed.

Abbreviation first_step_trace := (first_step_trace lr_value).

Section FirstBatch.
Variables (b : Batch) (rest : list Batch) (r : Loss * list (string * Scalar)).
Hypothesis Hepochs : 0 < max_epochs.
Hypothesis Htrain : train_dataloader = b :: rest.
Hypothesis Hstep : step b 0 = Returned r.

Lemma fit_first_zero_factor (s : state) :
  accumulate_grad_batches cfg = 0 →
  fit s = ([Print_epoch 0; Call_step false b 0; Zero_grad; Backward (fst r)],
           set_grad [fst r] (set_val_pulled 0 (set_global_step 0 s)),
           Raise (ZeroDivisionError Accumulate_grad_batches)).
Proof.
  intros Hacc. rewrite fit_eq.
  destruct (Z.to_nat max_epochs) as [|n] eqn:Hn; [lia|].
  rewrite epoch_loop_S, Htrain, train_loop_cons, training_step_eq, Hstep.
  by rewrite Hacc.
Qed.

Lemma fit_first (s : state) :
  accumulate_grad_batches cfg ≠ 0 →
  fit s =
  match step_lr_scheduler (after_first r s) with
  | (t2, s2, Raise e) => (first_step_trace b r s ++ t2, s2, Raise e)
  | (t2, s2, Ok _) =>
    match
      (if global_step s2 >? max_steps then (t2, s2, Ok true)
       else
         match save_checkpoint s2 with
         | (t3, s3, Raise e) => (t2 ++ t3, s3, Raise e)
         | (t3, s3, Ok _) =>
           match validate 0 s3 with
           | (t4, s4, Raise e) => (t2 ++ t3 ++ t4, s4, Raise e)
           | (t4, s4, Ok _) =>
             match train_loop rest 1 s4 with
             | (t5, s5, r5) => (t2 ++ t3 ++ t4 ++ t5, s5, r5)
             end
           end
         end)
    with
    | (t, s', Raise e) => (first_step_trace b r s ++ t, s', Raise e)
    | (t, s', Ok stop) =>
      match epoch_lr_scheduler s' with
      | (t6, s6, Raise e) => (first_step_trace b r s ++ t ++ t6, s6, Raise e)
      | (t6, s6, Ok _) =>
        if stop then (first_step_trace b r s ++ t ++ t6, s6, Ok tt)
        else
          match epoch_loop (Nat.pred (Z.to_nat max_epochs)) 1 s6 with
          | (t7, s7, r7) => (first_step_trace b r s ++ t ++ t6 ++ t7, s7, r7)
          end
      end
    end
  end.
Proof.
  intros Hacc. rewrite fit_eq.
  destruct (Z.to_nat max_epochs) as [|n] eqn:Hn; [lia|].
  rewrite epoch_loop_S, Htrain, train_loop_cons, training_step_eq, Hstep.
  apply Z.eqb_neq in Hacc as Hacc'. rewrite Hacc'.
  change (global_step (set_val_pulled 0 (set_global_step 0 s))) with 0.
  rewrite Z.mod_0_l by done. simpl.
  change (set_global_step (0 + 1) _) with (after_first r s).
  change (0 + 1) with 1.
  destruct (step_lr_scheduler (after_first r s)) as [[t2 s2] [[]|e]];
    [|reflexivity].
  destruct (global_step s2 >? max_steps).
  { destruct (epoch_lr_scheduler s2) as [[t6 s6] [[]|e]]; simpl;
      by rewrite <- ?app_assoc. }
  destruct (save_checkpoint s2) as [[t3 s3] [[]|e]]; [|reflexivity].
  destruct (validate 0 s3) as [[t4 s4] [[]|e]]; [|reflexivity].
  destruct (train_loop rest 1 s4) as [[t5 s5] [stop|e]]; [|reflexivity].
  destruct (epoch_lr_scheduler s5) as [[t6 s6] [[]|e]]; [|reflexivity].
  destruct stop; [reflexivity|].
  destruct (epoch_loop n 1 s6) as [[t7 s7] r7]. reflexivity.
Qed.

End FirstBatch.


Lemma count_app p (t1 t2 : list event) :
  count p (t1 ++ t2) = (count p t1 + count p t2)%nat.
Proof. unfold count. by rewrite List.filter_app, length_app. Qed.

Lemma sched_only_count p (t : list event) :
  p Lr_scheduler_step = false → sched_only t → count p t = 0%nat.
Proof.
  intros Hp. unfold count. induction t as [|e t IH]; simpl; [done|].
  intros [He Ht]%andb_prop. destruct e; try done.
  rewrite Hp. by apply IH.
Qed.

Lemma sched_only_saved (t : list event) : sched_only t → saved_steps t = [].
Proof.
  induction t as [|e t IH]; simpl; [done|].
  intros [He Ht]%andb_prop. destruct e; try done. by apply IH.
Qed.

(** ** The claims *)

(** C1, amended.  With [max_steps = 0], at least one epoch, a training
    source with a first batch on which [step] returns, and a nonzero
    accumulation factor, [fit] runs the whole training step of the first
    batch, optimizer update included, and stops right after it: what follows
    in the trace is scheduler steps only, so there is exactly one optimizer
    update, exactly one training step, no checkpoint and no validation, and
    the counter ends at 1. *)
Theorem fit_max_steps_0_runs_one_step (s : state)
  (b : Batch) (rest : list Batch) (r : Loss * list (string * Scalar))
  (Hmax : max_steps = 0) (Hepochs : 0 < max_epochs)
  (Htrain : train_dataloader = b :: rest) (Hstep : step b 0 = Returned r)
  (Hacc : accumulate_grad_batches cfg ≠ 0) :
  ∃ tail,
    trace_of (fit s)
    = [Print_epoch 0; Call_step false b 0; Zero_grad; Backward (fst r);
       Clip_grad_norm; Opt_step [fst r];
       Log_dict (train_logs lr_value (snd r) s) 0] ++ tail
    ∧ Forall (λ e, e = Lr_scheduler_step) tail
    ∧ count is_opt_step (trace_of (fit s)) = 1%nat
    ∧ count is_training_call (trace_of (fit s)) = 1%nat
    ∧ saved_steps (trace_of (fit s)) = []
    ∧ global_step (final_state (fit s)) = 1.
Proof.
  assert (∃ tail, trace_of (fit s) = first_step_trace b r s ++ tail
                  ∧ sched_only tail
                  ∧ global_step (final_state (fit s)) = 1)
    as (tail & Htrace & Htail & Hfinal).
  { rewrite (fit_first b rest r Hepochs Htrain Hstep s Hacc).
    pose proof (step_lr_scheduler_sched_only (after_first r s)) as H2.
    pose proof (step_lr_scheduler_global_step (after_first r s)) as G2.
    destruct (step_lr_scheduler (after_first r s)) as [[t2 s2] r2].
    unfold trace_of, final_state in H2, G2. simpl in H2, G2.
    change (global_step (after_first r s)) with 1 in G2.
    destruct r2 as [[]|e]; [|by exists t2].
    rewrite (proj2 (Z.gtb_lt _ _)) by lia.
    pose proof (epoch_lr_scheduler_sched_only s2) as H6.
    pose proof (epoch_lr_scheduler_global_step s2) as G6.
    destruct (epoch_lr_scheduler s2) as [[t6 s6] r6].
    unfold trace_of, final_state in H6, G6. simpl in H6, G6.
    exists (t2 ++ t6).
    destruct r6 as [[]|e]; unfold trace_of, final_state; simpl;
      (split; [done|]; split; [by apply sched_only_app|lia]). }
  exists tail. rewrite Htrace. split; [done|].
  split; [by apply sched_only_Forall|].
  rewrite !count_app, saved_steps_app.
  rewrite !(sched_only_count _ tail), (sched_only_saved tail) by done.
  done.
Qed.


(** C3.  Once a training step has been logged at a step [g] with
    [max_steps < g + 1], that is, once the counter exceeds [max_steps] after
    a training step, the rest of the run consists of scheduler steps only:
    no further training step, checkpoint or validation, and no further
    epoch. *)
Theorem fit_halts_past_max_steps (s : state) (pre post : list event)
  (params : list (string * Scalar)) (g : Z)
  (Hsplit : trace_of (fit s) = pre ++ Log_dict params g :: post)
  (Htrain : dict_get params "train/lr" ≠ None)
  (Hover : max_steps < g + 1) :
  Forall (λ e, e = Lr_scheduler_step) post.
Proof.
  apply sched_only_Forall, (halts_split pre post params g); [|done..].
  rewrite <- Hsplit, fit_eq. apply epoch_loop_halts.
Qed.

(** C5.  In a run that returns and is not cut short by [max_steps] (all
    the batches of all the epochs fit within [max_steps]), the checkpoints
    are saved at exactly the multiples of [save_every_n_steps] among the
    steps 1 .. total, in increasing order, each once. *)
Theorem checkpoints_at_multiples (s : state)
  (Hok : outcome (fit s) = Ok tt)
  (Hfull : Z.of_nat (Z.to_nat max_epochs * length train_dataloader)
           ≤ max_steps) :
  let total := Z.of_nat (Z.to_nat max_epochs * length train_dataloader) in
  global_step (final_state (fit s)) = total
  ∧ saved_steps (trace_of (fit s))
    = List.filter (λ g, g mod save_every_n_steps =? 0) (seqZ 1 total)
  ∧ ∀ g, In g (saved_steps (trace_of (fit s)))
         ↔ 1 ≤ g ≤ total ∧ (save_every_n_steps | g).
Proof.
  intros total.
  assert (global_step (final_state (fit s)) = total
          ∧ saved_steps (trace_of (fit s)) = multiples (seqZ 1 total))
    as [Hfinal Hsaved].
  { rewrite fit_eq in Hok |- *.
    pose proof (epoch_loop_saved (Z.to_nat max_epochs) 0
                  (set_val_pulled 0 (set_global_step 0 s))) as H.
    destruct (epoch_loop _ _ _) as [[t s'] [[]|e]]; [|discriminate Hok].
    apply H. simpl. lia. }
  split; [done|]. split; [done|].
  intros g. rewrite Hsaved, filter_In, <- list_elem_of_In, elem_of_seqZ.
  rewrite Z.eqb_eq, mod_0_divide. intuition lia.
Qed.

(** C7, amended.  With the epoch-wise granularity and a scheduler, a run of
    [fit] that returns is a sequence of epochs, each opened by its [print]
    and closed by exactly one scheduler step that comes after everything the
    epoch's batch loop did; this holds for every epoch that was begun,
    whether its batch loop ran through or was left by the [max_steps] stop.
    So the scheduler steps as many times as epochs were begun. *)
Theorem epoch_scheduler_once_per_epoch_begun (s : state)
  (Hepoch : lr_step cfg = LrStr "epoch")
  (Hsched : has_lr_scheduler cfg = true)
  (Hok : outcome (fit s) = Ok tt) :
  scheduler_closes_epochs false (trace_of (fit s)) = true
  ∧ count is_lr_scheduler_step (trace_of (fit s))
    = count is_print_epoch (trace_of (fit s)).
Proof.
  assert (scheduler_closes_epochs false (trace_of (fit s)) = true) as H.
  { rewrite fit_eq in Hok |- *.
    pose proof (epoch_loop_closes Hepoch Hsched (Z.to_nat max_epochs) 0
                  (set_val_pulled 0 (set_global_step 0 s))) as H.
    by destruct (epoch_loop _ _ _) as [[t s'] [[]|e]]. }
  split; [done|]. rewrite (closes_count _ _ H). lia.
Qed.

(** C9, amended.  Take a run with at least one epoch and a first training
    batch on which [step] returns, and a [lr_step] for which the step-wise
    scheduler check cannot raise.  None of the three remainders raises a
    division-by-zero error if and only if [accumulate_grad_batches] is
    nonzero and, when [max_steps >= 1], [save_every_n_steps] and
    [validation_every_n_steps] are nonzero too: with [max_steps <= 0] the
    loop stops before the two remainders in [fit] are taken. *)
Theorem zero_division_iff (s : state)
  (b : Batch) (rest : list Batch) (r : Loss * list (string * Scalar))
  (Hepochs : 0 < max_epochs)
  (Htrain : train_dataloader = b :: rest)
  (Hstep : step b 0 = Returned r)
  (Hlr : lr_step_safe cfg) :
  ¬ zero_division (outcome (fit s))
  ↔ accumulate_grad_batches cfg ≠ 0
    ∧ (1 ≤ max_steps →
       save_every_n_steps ≠ 0 ∧ validation_every_n_steps ≠ 0).
Proof.
  split.
  - intros Hnz.
    assert (Hacc : accumulate_grad_batches cfg ≠ 0).
    { intros Hacc. apply Hnz.
      by rewrite (fit_first_zero_factor b rest r Hepochs Htrain Hstep s Hacc). }
    split; [done|]. intros Hmax.
    rewrite (fit_first b rest r Hepochs Htrain Hstep s Hacc) in Hnz.
    pose proof (step_lr_scheduler_safe (after_first r s) Hlr) as H2.
    pose proof (step_lr_scheduler_global_step (after_first r s)) as G2.
    destruct (step_lr_scheduler (after_first r s)) as [[t2 s2] r2].
    unfold outcome, final_state in H2, G2. simpl in H2, G2. subst r2.
    change (global_step (after_first r s)) with 1 in G2.
    rewrite Z.gtb_ltb, (proj2 (Z.ltb_ge _ _)) in Hnz by lia.
    rewrite save_checkpoint_eq in Hnz.
    destruct (save_every_n_steps =? 0) eqn:Hsave.
    { exfalso. by apply Hnz. }
    apply Z.eqb_neq in Hsave. split; [done|].
    intros Hval. apply Hnz.
    destruct (global_step s2 mod save_every_n_steps =? 0);
      simpl; by rewrite validate_eq, Hval.
  - intros [Hacc Hdiv]. rewrite fit_eq.
    by apply epoch_loop_no_zero_division.
Qed.

(** C10.  A training step on which [step] returns zeroes the gradients and
    then runs [backward] on the loss of its batch, on update and non-update
    steps alike: whatever the gradient buffer held before, it holds the
    gradient of that one loss afterwards, and an optimizer update made by
    the step consumes exactly that.  Along a whole [fit] call, every
    optimizer update consumes the gradient of a single loss. *)
Theorem gradients_of_current_batch_only (s s0 : state) (b : Batch) (idx : Z)
  (r : Loss * list (string * Scalar))
  (Hstep : step b idx = Returned r) :
  (∃ rest,
     trace_of (training_step b idx s)
     = [Call_step false b idx; Zero_grad; Backward (fst r)] ++ rest
     ∧ Forall (λ e, match e with
                    | Opt_step g => g = [fst r]
                    | Zero_grad | Backward _ => False
                    | _ => True
                    end) rest)
  ∧ grad (final_state (training_step b idx s)) = [fst r]
  ∧ Forall (single_batch_update step) (trace_of (fit s0)).
Proof.
  split; [|split].
  - rewrite training_step_eq, Hstep.
    destruct (accumulate_grad_batches cfg =? 0); [by exists []|].
    eexists. split; [reflexivity|].
    destruct (_ mod _ =? 0); by repeat constructor.
  - rewrite training_step_eq, Hstep.
    by destruct (accumulate_grad_batches cfg =? 0).
  - apply fit_single_batch.
Qed.

(** ** Relating the states along a run *)

(** [R s t s'] relates the state before and after a part of the run that
    returned with trace [t], [F s t s'] one that raised.  When every
    operation of the loop body keeps them, so does [fit]. *)
Section Along.
Variables R F : state → list event → state → Prop.
Hypothesis R_refl : ∀ s, R s [] s.
Hypothesis R_trans : ∀ s1 t1 s2 t2 s3,
  R s1 t1 s2 → R s2 t2 s3 → R s1 (t1 ++ t2) s3.
Hypothesis F_trans : ∀ s1 t1 s2 t2 s3,
  R s1 t1 s2 → F s2 t2 s3 → F s1 (t1 ++ t2) s3.

(** What an operation has to keep. *)
Abbreviation keeps m s :=
  (match m s with
   | (t, s', Ok _) => R s t s'
   | (t, s', Raise _) => F s t s'
   end).

Hypothesis R_training_step : ∀ b idx (s : state),
  match training_step b idx s with
  | (t, s', Ok _) => R s t (set_global_step (global_step s' + 1) s')
  | (t, s', Raise _) => F s t s'
  end.
Hypothesis R_step_lr_scheduler : ∀ s : state, keeps step_lr_scheduler s.
Hypothesis R_save_checkpoint : ∀ s : state, keeps save_checkpoint s.
Hypothesis R_validate : ∀ idx (s : state), keeps (validate idx) s.

Lemma train_loop_keeps batches : ∀ idx (s : state),
  keeps (train_loop batches idx) s.
Proof.
  induction batches as [|b rest IH]; intros idx s; [apply R_refl|].
  rewrite train_loop_cons.
  pose proof (R_training_step b idx s) as H1.
  destruct (training_step b idx s) as [[t1 s1] [[]|e]]; [|exact H1].
  pose proof (R_step_lr_scheduler (set_global_step (global_step s1 + 1) s1))
    as H2.
  destruct (step_lr_scheduler _) as [[t2 s2] [[]|e]]; [|by eapply F_trans].
  assert (H12 : R s (t1 ++ t2) s2) by (by eapply R_trans).
  destruct (global_step s2 >? max_steps); [done|].
  pose proof (R_save_checkpoint s2) as H3.
  destruct (save_checkpoint s2) as [[t3 s3] [[]|e]];
    [|rewrite app_assoc; by eapply F_trans].
  assert (H123 : R s (t1 ++ t2 ++ t3) s3)
    by (rewrite app_assoc; by eapply R_trans).
  pose proof (R_validate idx s3) as H4.
  destruct (validate idx s3) as [[t4 s4] [[]|e]].
  2:{ replace (t1 ++ t2 ++ t3 ++ t4) with ((t1 ++ t2 ++ t3) ++ t4)
        by (by rewrite <- !app_assoc).
      by eapply F_trans. }
  assert (H1234 : R s ((t1 ++ t2 ++ t3) ++ t4) s4) by (by eapply R_trans).
  pose proof (IH (idx + 1) s4) as H5.
  destruct (train_loop rest (idx + 1) s4) as [[t5 s5] r5].
  replace (t1 ++ t2 ++ t3 ++ t4 ++ t5) with (((t1 ++ t2 ++ t3) ++ t4) ++ t5)
    by (by rewrite <- !app_assoc).
  destruct r5 as [stop|e]; [by eapply R_trans|by eapply F_trans].
Qed.

Hypothesis R_print_epoch : ∀ epoch (s : state), R s [Print_epoch epoch] s.
Hypothesis R_epoch_lr_scheduler : ∀ s : state, keeps epoch_lr_scheduler s.

Lemma epoch_loop_keeps n : ∀ epoch (s : state), keeps (epoch_loop n epoch) s.
Proof.
  induction n as [|n IH]; intros epoch s; [apply R_refl|].
  rewrite epoch_loop_S.
  pose proof (train_loop_keeps train_dataloader 0 s) as H1.
  destruct (train_loop train_dataloader 0 s) as [[t1 s1] [stop|e]].
  2:{ change (Print_epoch epoch :: t1) with ([Print_epoch epoch] ++ t1).
      eapply F_trans; [apply R_print_epoch|done]. }
  assert (H01 : R s (Print_epoch epoch :: t1) s1).
  { change (Print_epoch epoch :: t1) with ([Print_epoch epoch] ++ t1).
    eapply R_trans; [apply R_print_epoch|done]. }
  pose proof (R_epoch_lr_scheduler s1) as H2.
  destruct (epoch_lr_scheduler s1) as [[t2 s2] [[]|e]].
  2:{ change (Print_epoch epoch :: t1 ++ t2)
        with ((Print_epoch epoch :: t1) ++ t2).
      by eapply F_trans. }
  assert (H012 : R s ((Print_epoch epoch :: t1) ++ t2) s2)
    by (by eapply R_trans).
  destruct stop; [done|].
  pose proof (IH (epoch + 1) s2) as H3.
  destruct (epoch_loop n (epoch + 1) s2) as [[t3 s3] r3].
  replace (Print_epoch epoch :: t1 ++ t2 ++ t3)
    with (((Print_epoch epoch :: t1) ++ t2) ++ t3)
    by (simpl; by rewrite <- !app_assoc).
  destruct r3 as [[]|e]; [by eapply R_trans|by eapply F_trans].
Qed.

Lemma fit_keeps (s : state) :
  match fit s with
  | (t, s', Ok _) => R (set_val_pulled 0 (set_global_step 0 s)) t s'
  | (t, s', Raise _) => F (set_val_pulled 0 (set_global_step 0 s)) t s'
  end.
Proof. rewrite fit_eq. apply epoch_loop_keeps. Qed.

End Along.

(** ** Counting training steps *)

Abbreviation updates_among l :=
  (List.filter (λ g, g mod accumulate_grad_batches cfg =? 0) l).

(** From [s] to [s'] the counter went up by the number of training steps
    logged in [t], which were logged at the steps in between, and the
    optimizer was updated at those of them that the gate lets through. *)
Abbreviation counted s t s' :=
  (global_step s ≤ global_step s'
   ∧ train_log_steps (t : list event)
     = seqZ (global_step s) (global_step s' - global_step s)
   ∧ count is_opt_step (t : list event)
     = length (updates_among
                 (seqZ (global_step s) (global_step s' - global_step s)))).

Lemma train_log_steps_app (t1 t2 : list event) :
  train_log_steps (t1 ++ t2) = train_log_steps t1 ++ train_log_steps t2.
Proof. apply flat_map_app. Qed.

Lemma counted_refl (s : state) : counted s [] s.
Proof. split; [lia|]. by rewrite Z.sub_diag. Qed.

Lemma counted_trans (s1 : state) t1 (s2 : state) t2 (s3 : state) :
  counted s1 t1 s2 → counted s2 t2 s3 → counted s1 (t1 ++ t2) s3.
Proof.
  intros (Hle1 & Hlog1 & Hopt1) (Hle2 & Hlog2 & Hopt2).
  assert (Hseq :
    seqZ (global_step s1) (global_step s3 - global_step s1)
    = seqZ (global_step s1) (global_step s2 - global_step s1)
      ++ seqZ (global_step s2) (global_step s3 - global_step s2)).
  { replace (global_step s3 - global_step s1)
      with ((global_step s2 - global_step s1)
            + (global_step s3 - global_step s2)) by lia.
    rewrite seqZ_app by lia. do 2 f_equal. lia. }
  split; [lia|]. rewrite Hseq. split.
  - by rewrite train_log_steps_app, Hlog1, Hlog2.
  - by rewrite count_app, Hopt1, Hopt2, List.filter_app, length_app.
Qed.

(** An operation that logs no training step, makes no update and leaves
    the counter alone. *)
Lemma counted_idle (s : state) t (s' : state) :
  global_step s' = global_step s → train_log_steps t = [] →
  count is_opt_step t = 0%nat → counted s t s'.
Proof.
  intros -> -> ->. split; [lia|]. by rewrite Z.sub_diag.
Qed.

Lemma training_step_counted b idx (s : state) :
  match training_step b idx s with
  | (t, s', Ok _) => counted s t (set_global_step (global_step s' + 1) s')
  | (t, s', Raise _) => counted s t s'
  end.
Proof.
  rewrite training_step_eq.
  destruct (step b idx) as [r|msg]; [|by apply counted_idle].
  destruct (accumulate_grad_batches cfg =? 0) eqn:Hacc;
    [by apply counted_idle|].
  simpl global_step.
  replace (global_step s + 1 - global_step s) with 1 by lia.
  split; [lia|]. change (seqZ (global_step s) 1) with [global_step s].
  split.
  - rewrite !train_log_steps_app.
    replace (train_log_steps
               [Log_dict (train_logs lr_value r.2 s) (global_step s)])
      with [global_step s].
    + by destruct (_ mod _ =? 0).
    + unfold train_log_steps, train_log_step. simpl.
      by rewrite train_logs_has_lr.
  - rewrite !count_app. simpl List.filter.
    by destruct (_ mod _ =? 0).
Qed.

Lemma step_lr_scheduler_counted (s : state) :
  match step_lr_scheduler s with
  | (t, s', _) => counted s t s'
  end.
Proof.
  rewrite step_lr_scheduler_eq.
  repeat case_match; simplify_eq; by apply counted_idle.
Qed.

Lemma epoch_lr_scheduler_counted (s : state) :
  match epoch_lr_scheduler s with
  | (t, s', _) => counted s t s'
  end.
Proof.
  rewrite epoch_lr_scheduler_eq.
  repeat case_match; simplify_eq; by apply counted_idle.
Qed.

Lemma save_checkpoint_counted (s : state) :
  match save_checkpoint s with
  | (t, s', _) => counted s t s'
  end.
Proof.
  rewrite save_checkpoint_eq.
  repeat case_match; simplify_eq; by apply counted_idle.
Qed.

Lemma validate_counted idx (s : state) :
  match validate idx s with
  | (t, s', _) => counted s t s'
  end.
Proof.
  rewrite validate_eq.
  repeat case_match; cbv zeta in *; simplify_eq; apply counted_idle;
    try done; unfold train_log_steps, train_log_step; simpl;
    by rewrite ?val_logs_no_lr.
Qed.

Lemma fit_counted (s : state) :
  counted (set_val_pulled 0 (set_global_step 0 s))
    (trace_of (fit s)) (final_state (fit s)).
Proof.
  pose proof (fit_keeps (λ s t s', counted s t s') (λ s t s', counted s t s')
                counted_refl counted_trans counted_trans) as H.
  assert (Hfit : match fit s with
                 | (t, s', Ok _) | (t, s', Raise _) =>
                     counted (set_val_pulled 0 (set_global_step 0 s)) t s'
                 end).
  { apply H; clear H.
    - apply training_step_counted.
    - intros s0. pose proof (step_lr_scheduler_counted s0) as H.
      by destruct (step_lr_scheduler s0) as [[t s'] [[]|e]].
    - intros s0. pose proof (save_checkpoint_counted s0) as H.
      by destruct (save_checkpoint s0) as [[t s'] [[]|e]].
    - intros idx s0. pose proof (validate_counted idx s0) as H.
      by destruct (validate idx s0) as [[t s'] [[]|e]].
    - intros epoch s0. by apply counted_idle.
    - intros s0. pose proof (epoch_lr_scheduler_counted s0) as H.
      by destruct (epoch_lr_scheduler s0) as [[t s'] [[]|e]]. }
  by destruct (fit s) as [[t s'] [[]|e]].
Qed.

(** ** Validation batches and the model's mode *)

(** The validation batches pulled in [t] are the next ones of the cycle. *)
Abbreviation cycled s t s' :=
  (val_pulled s'
   = Nat.add (val_pulled s) (length (validation_batches (t : list event)))
   ∧ ∀ j b, nth_error (validation_batches (t : list event)) j = Some b →
            nth_error val_dataloader
              (Nat.modulo (Nat.add (val_pulled s) j) (length val_dataloader))
            = Some b).

Lemma validation_batches_app (t1 t2 : list event) :
  validation_batches (t1 ++ t2)
  = validation_batches t1 ++ validation_batches t2.
Proof. apply flat_map_app. Qed.

Lemma cycled_idle (s : state) t (s' : state) :
  val_pulled s' = val_pulled s → validation_batches t = [] → cycled s t s'.
Proof.
  intros -> ->. split; [simpl; lia|]. intros j b Hj. by destruct j.
Qed.

Lemma cycled_trans (s1 : state) t1 (s2 : state) t2 (s3 : state) :
  cycled s1 t1 s2 → cycled s2 t2 s3 → cycled s1 (t1 ++ t2) s3.
Proof.
  intros [Hn1 Hb1] [Hn2 Hb2]. rewrite validation_batches_app, length_app.
  split; [lia|]. intros j b Hj.
  destruct (decide (j < length (validation_batches t1))%nat) as [Hlt|Hge].
  - rewrite nth_error_app1 in Hj by done. by apply Hb1.
  - rewrite nth_error_app2 in Hj by lia. apply Hb2 in Hj.
    rewrite Hn1 in Hj.
    by replace (val_pulled s1 + j)%nat
      with (val_pulled s1 + length (validation_batches t1)
            + (j - length (validation_batches t1)))%nat by lia.
Qed.

Lemma validate_cycled idx (s : state) :
  match validate idx s with
  | (t, s', _) => cycled s t s'
  end.
Proof.
  rewrite validate_eq.
  destruct (validation_every_n_steps =? 0); [by apply cycled_idle|].
  destruct (idx mod validation_every_n_steps =? 0); [|by apply cycled_idle].
  destruct (nth_error _ _) as [b|] eqn:Hb; [|by apply cycled_idle].
  assert (cycled s [Model_eval; Call_step true b idx]
            (set_val_pulled (S (val_pulled s)) s)) as Hpull.
  { split; [simpl; lia|]. intros [|j] b' Hj; simpl in Hj; [|by destruct j].
    injection Hj as <-. by rewrite Nat.add_0_r. }
  destruct (step b idx) as [r|msg]; [|exact Hpull].
  destruct Hpull as [Hn Hb']. split; [exact Hn|exact Hb'].
Qed.

Lemma fit_cycled (s : state) :
  cycled (set_val_pulled 0 (set_global_step 0 s))
    (trace_of (fit s)) (final_state (fit s)).
Proof.
  pose proof (fit_keeps (λ s t s', cycled s t s') (λ s t s', cycled s t s')
                (λ s, cycled_idle s [] s eq_refl eq_refl)
                cycled_trans cycled_trans) as H.
  assert (Hfit : match fit s with
                 | (t, s', Ok _) | (t, s', Raise _) =>
                     cycled (set_val_pulled 0 (set_global_step 0 s)) t s'
                 end).
  { apply H; clear H.
    - intros b idx s0. rewrite training_step_eq.
      repeat case_match; cbv zeta in *; simplify_eq;
        by apply cycled_idle.
    - intros s0. rewrite step_lr_scheduler_eq.
      repeat case_match; cbv zeta in *; simplify_eq;
        by apply cycled_idle.
    - intros s0. rewrite save_checkpoint_eq.
      repeat case_match; cbv zeta in *; simplify_eq;
        by apply cycled_idle.
    - intros idx s0. pose proof (validate_cycled idx s0) as H.
      by destruct (validate idx s0) as [[t s'] [[]|e]].
    - intros epoch s0. by apply cycled_idle.
    - intros s0. rewrite epoch_lr_scheduler_eq.
      repeat case_match; cbv zeta in *; simplify_eq;
        by apply cycled_idle. }
  by destruct (fit s) as [[t s'] [[]|e]].
Qed.

(** A part of the run that starts and ends in training mode, and one that
    raised. *)
Abbreviation in_train_mode t :=
  (∀ rest, mode_respected false ((t : list event) ++ rest)
           = mode_respected false rest).

Lemma fit_mode_respected (s : state) :
  mode_respected false (trace_of (fit s)) = true.
Proof.
  pose proof (fit_keeps (λ _ t _, in_train_mode t)
                (λ _ t _, mode_respected false t = true)) as H.
  assert (Hfit : match fit s with
                 | (t, _, Ok _) => in_train_mode t
                 | (t, _, Raise _) => mode_respected false t = true
                 end).
  { apply H; clear H.
    - done.
    - intros _ t1 _ t2 _ H1 H2 rest. by rewrite <- app_assoc, H1, H2.
    - intros _ t1 _ t2 _ H1 H2. by rewrite H1.
    - intros b idx s0. rewrite training_step_eq.
      repeat case_match; simplify_eq; done.
    - intros s0. rewrite step_lr_scheduler_eq.
      repeat case_match; simplify_eq; done.
    - intros s0. rewrite save_checkpoint_eq.
      repeat case_match; simplify_eq; done.
    - intros idx s0. rewrite validate_eq.
      repeat case_match; cbv zeta in *; simplify_eq; done.
    - done.
    - intros s0. rewrite epoch_lr_scheduler_eq.
      repeat case_match; simplify_eq; done. }
  destruct (fit s) as [[t s'] [[]|e]]; [|done].
  unfold trace_of. simpl. by rewrite <- (app_nil_r t), Hfit.
Qed.

(** ** How far the counter gets *)

(** What the inner loop does to the counter when it returns: it runs
    through its batches, or stops at the first step past [max_steps]. *)
Lemma train_loop_length batches : ∀ idx (s : state),
  match train_loop batches idx s with
  | (_, s', Ok true) =>
      global_step s' = Z.max (global_step s + 1) (max_steps + 1)
      ∧ global_step s' ≤ global_step s + Z.of_nat (length batches)
  | (_, s', Ok false) =>
      global_step s' = global_step s + Z.of_nat (length batches)
      ∧ (batches = [] ∨ global_step s' ≤ max_steps)
  | _ => True
  end.
Proof.
  induction batches as [|b rest IH]; intros idx s.
  { simpl. split; [lia|by left]. }
  rewrite train_loop_cons.
  pose proof (training_step_global_step b idx s) as G1.
  destruct (training_step b idx s) as [[t1 s1] [[]|e]]; [|done].
  pose proof (step_lr_scheduler_global_step
                (set_global_step (global_step s1 + 1) s1)) as G2.
  destruct (step_lr_scheduler _) as [[t2 s2] [[]|e]]; [|done].
  unfold final_state in G1, G2. simpl in G1, G2.
  destruct (global_step s2 >? max_steps) eqn:Hgt;
    [simpl length; lia|].
  pose proof (save_checkpoint_global_step s2) as G3.
  destruct (save_checkpoint s2) as [[t3 s3] [[]|e]]; [|done].
  pose proof (validate_global_step idx s3) as G4.
  destruct (validate idx s3) as [[t4 s4] [[]|e]]; [|done].
  unfold final_state in G3, G4. simpl in G3, G4.
  pose proof (IH (idx + 1) s4) as H5.
  destruct (train_loop rest (idx + 1) s4) as [[t5 s5] [[]|e]]; [| |done].
  - simpl length. lia.
  - destruct H5 as [G5 [->|Hle]]; simpl length in *.
    + split; [lia|right; lia].
    + split; [lia|right; lia].
Qed.

Lemma epoch_loop_length n : ∀ epoch (s : state),
  match epoch_loop n epoch s with
  | (_, s', Ok _) =>
      global_step s'
      = Z.min (global_step s + Z.of_nat (n * length train_dataloader))
          (Z.max (global_step s + 1) (max_steps + 1))
  | _ => True
  end.
Proof.
  induction n as [|n IH]; intros epoch s; [simpl; lia|].
  rewrite epoch_loop_S.
  pose proof (train_loop_length train_dataloader 0 s) as H1.
  destruct (train_loop train_dataloader 0 s) as [[t1 s1] [stop|e]]; [|done].
  pose proof (epoch_lr_scheduler_global_step s1) as G2.
  destruct (epoch_lr_scheduler s1) as [[t2 s2] [[]|e]]; [|done].
  unfold final_state in G2. simpl in G2.
  destruct stop; [lia|].
  pose proof (IH (epoch + 1) s2) as H3.
  destruct (epoch_loop n (epoch + 1) s2) as [[t3 s3] [[]|e]]; [|done].
  destruct H1 as [G1 [Hnil|Hle]].
  - rewrite Hnil in *. simpl length in *. lia.
  - lia.
Qed.

(** ** Checkpoints stay within [max_steps] *)

Abbreviation checkpoint_ok g :=
  (1 ≤ g ≤ max_steps ∧ (save_every_n_steps | g)).

Lemma train_loop_saved_within batches : ∀ idx (s : state),
  0 ≤ global_step s →
  match train_loop batches idx s with
  | (t, s', _) =>
      0 ≤ global_step s' ∧ Forall (λ g, checkpoint_ok g) (saved_steps t)
  end.
Proof.
  induction batches as [|b rest IH]; intros idx s Hs; [by split|].
  rewrite train_loop_cons.
  pose proof (training_step_global_step b idx s) as G1.
  pose proof (training_step_saved b idx s) as H1.
  destruct (training_step b idx s) as [[t1 s1] r1].
  unfold final_state, trace_of in G1, H1. simpl in G1, H1.
  destruct r1 as [[]|e]; [|rewrite H1; split; [lia|done]].
  pose proof (step_lr_scheduler_global_step
                (set_global_step (global_step s1 + 1) s1)) as G2.
  pose proof (step_lr_scheduler_saved
                (set_global_step (global_step s1 + 1) s1)) as H2.
  destruct (step_lr_scheduler _) as [[t2 s2] r2].
  unfold final_state, trace_of in G2, H2. simpl in G2, H2.
  assert (H12 : saved_steps (t1 ++ t2) = [])
    by (by rewrite saved_steps_app, H1, H2).
  destruct r2 as [[]|e]; [|rewrite H12; split; [lia|done]].
  destruct (global_step s2 >? max_steps) eqn:Hgt;
    [rewrite H12; split; [lia|done]|].
  pose proof (save_checkpoint_global_step s2) as G3.
  assert (H3 : Forall (λ g, checkpoint_ok g)
                 (saved_steps (trace_of (save_checkpoint s2)))).
  { rewrite save_checkpoint_eq.
    destruct (save_every_n_steps =? 0); [done|].
    destruct (global_step s2 mod save_every_n_steps =? 0) eqn:Hmod; [|done].
    repeat constructor; try lia.
    by apply mod_0_divide, Z.eqb_eq. }
  destruct (save_checkpoint s2) as [[t3 s3] r3].
  unfold final_state, trace_of in G3, H3. simpl in G3, H3.
  assert (H123 : Forall (λ g, checkpoint_ok g) (saved_steps (t1 ++ t2 ++ t3)))
    by (by rewrite app_assoc, saved_steps_app, H12).
  destruct r3 as [[]|e]; [|split; [lia|done]].
  pose proof (validate_global_step idx s3) as G4.
  pose proof (validate_saved idx s3) as H4.
  destruct (validate idx s3) as [[t4 s4] r4].
  unfold final_state, trace_of in G4, H4. simpl in G4, H4.
  assert (H1234 :
    Forall (λ g, checkpoint_ok g) (saved_steps ((t1 ++ t2 ++ t3) ++ t4)))
    by (by rewrite saved_steps_app, H4, app_nil_r).
  rewrite <- app_assoc in H1234. rewrite <- (app_assoc t2) in H1234.
  destruct r4 as [[]|e]; [|split; [lia|done]].
  pose proof (IH (idx + 1) s4) as H5.
  destruct (train_loop rest (idx + 1) s4) as [[t5 s5] r5].
  destruct H5 as [G5 H5]; [lia|]. split; [done|].
  replace (t1 ++ t2 ++ t3 ++ t4 ++ t5) with ((t1 ++ t2 ++ t3 ++ t4) ++ t5)
    by (by rewrite <- !app_assoc).
  rewrite saved_steps_app. by apply Forall_app.
Qed.

Lemma epoch_loop_saved_within n : ∀ epoch (s : state),
  0 ≤ global_step s →
  Forall (λ g, checkpoint_ok g) (saved_steps (trace_of (epoch_loop n epoch s))).
Proof.
  induction n as [|n IH]; intros epoch s Hs; [done|].
  rewrite epoch_loop_S.
  pose proof (train_loop_saved_within train_dataloader 0 s Hs) as H1.
  destruct (train_loop train_dataloader 0 s) as [[t1 s1] r1].
  destruct H1 as [G1 H1].
  destruct r1 as [stop|e]; [|done].
  pose proof (epoch_lr_scheduler_global_step s1) as G2.
  pose proof (epoch_lr_scheduler_saved s1) as H2.
  destruct (epoch_lr_scheduler s1) as [[t2 s2] r2].
  unfold final_state, trace_of in G2, H2. simpl in G2, H2.
  assert (H12 : Forall (λ g, checkpoint_ok g)
                  (saved_steps (Print_epoch epoch :: t1 ++ t2))).
  { change (Print_epoch epoch :: t1 ++ t2)
      with ([Print_epoch epoch] ++ t1 ++ t2).
    by rewrite !saved_steps_app, H2, app_nil_r. }
  destruct r2 as [[]|e]; [|done].
  destruct stop; [done|].
  pose proof (IH (epoch + 1) s2) as H3.
  destruct (epoch_loop n (epoch + 1) s2) as [[t3 s3] r3].
  unfold trace_of in H3 |- *. simpl fst in H3 |- *.
  replace (Print_epoch epoch :: t1 ++ t2 ++ t3)
    with ((Print_epoch epoch :: t1 ++ t2) ++ t3)
    by (simpl; by rewrite <- !app_assoc).
  rewrite saved_steps_app. apply Forall_app. split; [done|].
  apply H3. lia.
Qed.

(** ** The step-wise scheduler *)

Section StepWise.
Variable n : Z.
Hypothesis Hstepwise : lr_step cfg = LrInt n.
Hypothesis Hn : n ≠ 0.
Hypothesis Hsched : has_lr_scheduler cfg = true.

Abbreviation sched_among l := (List.filter (λ g, g mod n =? 0) l).

Lemma step_lr_scheduler_stepwise (s : state) :
  outcome (step_lr_scheduler s) = Ok tt
  ∧ count is_lr_scheduler_step (trace_of (step_lr_scheduler s))
    = length (sched_among [global_step s]).
Proof.
  rewrite step_lr_scheduler_eq, Hstepwise, Hsched.
  apply Z.eqb_neq in Hn as ->. simpl List.filter.
  by destruct (global_step s mod n =? 0).
Qed.

Lemma train_loop_stepwise batches : ∀ idx (s : state),
  match train_loop batches idx s with
  | (t, s', _) =>
      global_step s ≤ global_step s'
      ∧ count is_lr_scheduler_step t
        = length (sched_among (seqZ (global_step s + 1)
                                 (global_step s' - global_step s)))
  end.
Proof.
  induction batches as [|b rest IH]; intros idx s.
  { simpl. split; [lia|]. by rewrite Z.sub_diag. }
  rewrite train_loop_cons.
  pose proof (training_step_global_step b idx s) as G1.
  assert (H1 : count is_lr_scheduler_step (trace_of (training_step b idx s))
               = 0%nat).
  { rewrite training_step_eq. by repeat case_match. }
  destruct (training_step b idx s) as [[t1 s1] r1].
  unfold final_state, trace_of in G1, H1. simpl in G1, H1.
  destruct r1 as [[]|e].
  2:{ rewrite G1, Z.sub_diag. split; [lia|done]. }
  pose proof (step_lr_scheduler_global_step
                (set_global_step (global_step s1 + 1) s1)) as G2.
  pose proof (step_lr_scheduler_stepwise
                (set_global_step (global_step s1 + 1) s1)) as [O2 H2].
  destruct (step_lr_scheduler _) as [[t2 s2] r2].
  unfold final_state, trace_of, outcome in G2, H2, O2. simpl in G2, H2, O2.
  subst r2. rewrite G1 in *.
  assert (H12 : count is_lr_scheduler_step (t1 ++ t2)
                = length (sched_among (seqZ (global_step s + 1) 1)))
    by (by rewrite count_app, H1, H2).
  destruct (global_step s2 >? max_steps).
  { split; [lia|]. by replace (global_step s2 - global_step s) with 1 by lia. }
  pose proof (save_checkpoint_global_step s2) as G3.
  assert (H3 : count is_lr_scheduler_step (trace_of (save_checkpoint s2))
               = 0%nat).
  { rewrite save_checkpoint_eq. by repeat case_match. }
  destruct (save_checkpoint s2) as [[t3 s3] r3].
  unfold final_state, trace_of in G3, H3. simpl in G3, H3.
  assert (H123 : count is_lr_scheduler_step (t1 ++ t2 ++ t3)
                 = length (sched_among (seqZ (global_step s + 1) 1)))
    by (rewrite app_assoc, count_app, H12, H3; lia).
  destruct r3 as [[]|e].
  2:{ split; [lia|].
      by replace (global_step s3 - global_step s) with 1 by lia. }
  pose proof (validate_global_step idx s3) as G4.
  assert (H4 : count is_lr_scheduler_step (trace_of (validate idx s3))
               = 0%nat).
  { rewrite validate_eq. by repeat case_match. }
  destruct (validate idx s3) as [[t4 s4] r4].
  unfold final_state, trace_of in G4, H4. simpl in G4, H4.
  assert (H1234 : count is_lr_scheduler_step (t1 ++ t2 ++ t3 ++ t4)
                  = length (sched_among (seqZ (global_step s + 1) 1))).
  { replace (t1 ++ t2 ++ t3 ++ t4) with ((t1 ++ t2 ++ t3) ++ t4)
      by (by rewrite <- !app_assoc).
    rewrite count_app, H123, H4. lia. }
  destruct r4 as [[]|e].
  2:{ split; [lia|].
      by replace (global_step s4 - global_step s) with 1 by lia. }
  pose proof (IH (idx + 1) s4) as H5.
  destruct (train_loop rest (idx + 1) s4) as [[t5 s5] r5].
  destruct H5 as [G5 H5]. split; [lia|].
  replace (t1 ++ t2 ++ t3 ++ t4 ++ t5) with ((t1 ++ t2 ++ t3 ++ t4) ++ t5)
    by (by rewrite <- !app_assoc).
  rewrite count_app, H1234, H5.
  replace (global_step s5 - global_step s)
    with (1 + (global_step s5 - global_step s4)) by lia.
  rewrite seqZ_app, List.filter_app, length_app by lia.
  by replace (global_step s + 1 + 1) with (global_step s4 + 1) by lia.
Qed.

Lemma epoch_loop_stepwise k : ∀ epoch (s : state),
  match epoch_loop k epoch s with
  | (t, s', _) =>
      global_step s ≤ global_step s'
      ∧ count is_lr_scheduler_step t
        = length (sched_among (seqZ (global_step s + 1)
                                 (global_step s' - global_step s)))
  end.
Proof.
  induction k as [|k IH]; intros epoch s.
  { simpl. split; [lia|]. by rewrite Z.sub_diag. }
  rewrite epoch_loop_S.
  pose proof (train_loop_stepwise train_dataloader 0 s) as H1.
  destruct (train_loop train_dataloader 0 s) as [[t1 s1] r1].
  destruct H1 as [G1 H1].
  destruct r1 as [stop|e]; [|done].
  rewrite epoch_lr_scheduler_eq, Hstepwise.
  assert (H12 : count is_lr_scheduler_step (Print_epoch epoch :: t1 ++ [])
                = length (sched_among (seqZ (global_step s + 1)
                                         (global_step s1 - global_step s))))
    by (by rewrite app_nil_r).
  destruct stop; [done|].
  pose proof (IH (epoch + 1) s1) as H3.
  destruct (epoch_loop k (epoch + 1) s1) as [[t3 s3] r3].
  destruct H3 as [G3 H3]. split; [lia|].
  change (Print_epoch epoch :: t1 ++ [] ++ t3)
    with ((Print_epoch epoch :: t1) ++ t3).
  rewrite count_app.
  change (count is_lr_scheduler_step (Print_epoch epoch :: t1))
    with (count is_lr_scheduler_step t1).
  rewrite H1, H3.
  replace (global_step s3 - global_step s)
    with ((global_step s1 - global_step s)
          + (global_step s3 - global_step s1)) by lia.
  rewrite seqZ_app, List.filter_app, length_app by lia.
  by replace (global_step s + 1 + (global_step s1 - global_step s))
    with (global_step s1 + 1) by lia.
Qed.

End StepWise.

(** ** Validation by batch index *)

Abbreviation validated_among l :=
  (List.filter (λ i, i mod validation_every_n_steps =? 0) l).

Lemma validation_indices_app (t1 t2 : list event) :
  validation_indices (t1 ++ t2)
  = validation_indices t1 ++ validation_indices t2.
Proof. apply flat_map_app. Qed.

Lemma validate_indices idx (s : state) :
  match validate idx s with
  | (t, _, Ok _) => validation_indices t = validated_among [idx]
  | _ => True
  end.
Proof.
  rewrite validate_eq.
  destruct (validation_every_n_steps =? 0); [done|]. simpl List.filter.
  destruct (idx mod validation_every_n_steps =? 0); [|done].
  destruct (nth_error _ _) as [b|]; [|done].
  by destruct (step b idx).
Qed.

(** While the counter stays within [max_steps], the inner loop validates
    at the batch indices that the remainder lets through. *)
Lemma train_loop_validated batches : ∀ idx (s : state),
  global_step s + Z.of_nat (length batches) ≤ max_steps →
  match train_loop batches idx s with
  | (t, s', Ok _) =>
      validation_indices t
      = validated_among (seqZ idx (Z.of_nat (length batches)))
  | _ => True
  end.
Proof.
  induction batches as [|b rest IH]; intros idx s Hle; [done|].
  rewrite train_loop_cons.
  pose proof (training_step_global_step b idx s) as G1.
  assert (H1 : validation_indices (trace_of (training_step b idx s)) = []).
  { rewrite training_step_eq. by repeat case_match. }
  destruct (training_step b idx s) as [[t1 s1] [[]|e]]; [|done].
  pose proof (step_lr_scheduler_global_step
                (set_global_step (global_step s1 + 1) s1)) as G2.
  assert (H2 : validation_indices
                 (trace_of (step_lr_scheduler
                              (set_global_step (global_step s1 + 1) s1)))
               = []).
  { rewrite step_lr_scheduler_eq. by repeat case_match. }
  destruct (step_lr_scheduler _) as [[t2 s2] [[]|e]]; [|done].
  unfold trace_of, final_state in *. simpl in H1, G1, H2, G2, Hle.
  destruct (global_step s2 >? max_steps) eqn:Hgt; [lia|].
  pose proof (save_checkpoint_global_step s2) as G3.
  assert (H3 : validation_indices (trace_of (save_checkpoint s2)) = []).
  { rewrite save_checkpoint_eq. by repeat case_match. }
  destruct (save_checkpoint s2) as [[t3 s3] [[]|e]]; [|done].
  pose proof (validate_global_step idx s3) as G4.
  pose proof (validate_indices idx s3) as H4.
  destruct (validate idx s3) as [[t4 s4] [[]|e]]; [|done].
  unfold trace_of, final_state in *. simpl in H3, G3, G4.
  pose proof (IH (idx + 1) s4) as H5.
  destruct (train_loop rest (idx + 1) s4) as [[t5 s5] [stop|e]]; [|done].
  rewrite !validation_indices_app, H1, H2, H3, H4, H5 by lia.
  rewrite (seqZ_cons idx) by (simpl length; lia).
  replace (Z.pred (Z.of_nat (length (b :: rest))))
    with (Z.of_nat (length rest)) by (simpl length; lia).
  simpl. by destruct (idx mod validation_every_n_steps =? 0).
Qed.

Lemma epoch_loop_validated n : ∀ epoch (s : state),
  global_step s + Z.of_nat (n * length train_dataloader) ≤ max_steps →
  match epoch_loop n epoch s with
  | (t, _, Ok _) =>
      validation_indices t
      = concat (replicate n
                  (validated_among
                     (seqZ 0 (Z.of_nat (length train_dataloader)))))
  | _ => True
  end.
Proof.
  induction n as [|n IH]; intros epoch s Hle; [done|].
  rewrite epoch_loop_S.
  pose proof (train_loop_validated train_dataloader 0 s) as H1.
  pose proof (train_loop_length train_dataloader 0 s) as L1.
  destruct (train_loop train_dataloader 0 s) as [[t1 s1] [stop|e]]; [|done].
  assert (Hstop : stop = false ∧ global_step s1
                  = global_step s + Z.of_nat (length train_dataloader)).
  { destruct stop; [lia|]. by destruct L1. }
  destruct Hstop as [-> G1].
  pose proof (epoch_lr_scheduler_global_step s1) as G2.
  assert (H2 : validation_indices (trace_of (epoch_lr_scheduler s1)) = []).
  { rewrite epoch_lr_scheduler_eq. by repeat case_match. }
  destruct (epoch_lr_scheduler s1) as [[t2 s2] [[]|e]]; [|done].
  unfold trace_of, final_state in *. simpl in H2, G2.
  pose proof (IH (epoch + 1) s2) as H3.
  destruct (epoch_loop n (epoch + 1) s2) as [[t3 s3] [[]|e]]; [|done].
  change (Print_epoch epoch :: t1 ++ t2 ++ t3)
    with ([Print_epoch epoch] ++ t1 ++ t2 ++ t3).
  rewrite !validation_indices_app, H1, H2, H3 by lia.
  done.
Qed.

(** ** Further properties of [fit] *)

(** X1.  The training steps of a [fit] call are logged at the steps
    0, 1, 2, ... in this order, up to the final value of the counter: the
    counter restarts at 0 whatever it was before and counts the training
    steps that completed, in every run, also one that ends in an
    exception. *)
Theorem training_steps_logged_consecutively (s : state) :
  train_log_steps (trace_of (fit s))
  = seqZ 0 (global_step (final_state (fit s))).
Proof.
  destruct (fit_counted s) as (_ & Hlog & _).
  rewrite Hlog. simpl global_step. f_equal. lia.
Qed.

(** X2.  The optimizer is updated once for every completed training step
    whose step number [g] in 0 .. final - 1 has
    [g % accumulate_grad_batches == 0], and at no other time: the updates
    fall on the steps 0, N, 2N, ... *)
Theorem optimizer_updates_counted (s : state) :
  count is_opt_step (trace_of (fit s))
  = length (List.filter (λ g, g mod accumulate_grad_batches cfg =? 0)
              (seqZ 0 (global_step (final_state (fit s))))).
Proof.
  destruct (fit_counted s) as (_ & _ & Hopt).
  rewrite Hopt. simpl global_step. do 3 f_equal. lia.
Qed.

(** X3.  A [fit] call that returns has run
    [min (max_epochs * len(train), max (1, max_steps + 1))] training steps:
    all of them when they fit within [max_steps], and otherwise one more
    than [max_steps] (and at least one), because the stop is tested after
    the step. *)
Theorem fit_run_length (s : state)
  (Hok : outcome (fit s) = Ok tt) :
  global_step (final_state (fit s))
  = Z.min (Z.of_nat (Z.to_nat max_epochs * length train_dataloader))
      (Z.max 1 (max_steps + 1)).
Proof.
  rewrite fit_eq in Hok |- *.
  pose proof (epoch_loop_length (Z.to_nat max_epochs) 0
                (set_val_pulled 0 (set_global_step 0 s))) as H.
  destruct (epoch_loop _ _ _) as [[t s'] [[]|e]]; [|discriminate Hok].
  exact H.
Qed.

(** X4.  Every checkpoint of a [fit] call, in every run, is saved at a
    step between 1 and [max_steps] that is a multiple of
    [save_every_n_steps]: the step that takes the counter past [max_steps]
    is never saved, and with [max_steps <= 0] nothing is. *)
Theorem checkpoints_within_max_steps (s : state) :
  Forall (λ g, 1 ≤ g ≤ max_steps ∧ (save_every_n_steps | g))
    (saved_steps (trace_of (fit s))).
Proof. rewrite fit_eq. by apply epoch_loop_saved_within. Qed.

(** X5.  With a step interval [n <> 0] and a scheduler, the scheduler
    steps once for every multiple of [n] among the steps 1 .. final, in
    every run: unlike a checkpoint, the scheduler step of the step that
    takes the counter past [max_steps] is made, since it comes before the
    stop test. *)
Theorem stepwise_scheduler_counted (s : state) (n : Z)
  (Hstepwise : lr_step cfg = LrInt n) (Hn : n ≠ 0)
  (Hsched : has_lr_scheduler cfg = true) :
  count is_lr_scheduler_step (trace_of (fit s))
  = length (List.filter (λ g, g mod n =? 0)
              (seqZ 1 (global_step (final_state (fit s))))).
Proof.
  rewrite fit_eq.
  pose proof (epoch_loop_stepwise n Hstepwise Hn Hsched
                (Z.to_nat max_epochs) 0
                (set_val_pulled 0 (set_global_step 0 s))) as H.
  destruct (epoch_loop _ _ _) as [[t s'] r].
  destruct H as [_ H]. unfold trace_of, final_state. simpl fst. simpl snd.
  rewrite H. simpl global_step. do 3 f_equal. lia.
Qed.

(** X6.  Without a scheduler, or with [lr_step = None], the scheduler is
    never stepped. *)
Theorem no_scheduler_never_steps (s : state)
  (Hnone : has_lr_scheduler cfg = false ∨ lr_step cfg = LrNone) :
  count is_lr_scheduler_step (trace_of (fit s)) = 0%nat.
Proof.
  assert (H : Forall (λ e, is_lr_scheduler_step e = false) (trace_of (fit s))).
  { apply fit_every.
    - intros. rewrite training_step_eq.
      repeat case_match; by repeat constructor.
    - intros. rewrite step_lr_scheduler_eq.
      destruct Hnone as [Hno|Hno]; rewrite Hno;
        repeat case_match; by repeat constructor.
    - intros. rewrite save_checkpoint_eq.
      repeat case_match; by repeat constructor.
    - intros. rewrite validate_eq.
      repeat case_match; by repeat constructor.
    - done.
    - intros. rewrite epoch_lr_scheduler_eq.
      destruct Hnone as [Hno|Hno]; rewrite Hno;
        repeat case_match; by repeat constructor. }
  unfold count. induction H as [|e t He _ IH]; [done|].
  simpl. by rewrite He.
Qed.

(** X7.  With [lr_step = "epoch"] but no scheduler, a [fit] call with at
    least one epoch never returns: unless the batch loop of the first epoch
    raises, the test of [self.lr_scheduler] after it raises
    [AttributeError].  Only one epoch is begun. *)
Theorem epoch_granularity_without_scheduler_raises (s : state)
  (Hepochs : 0 < max_epochs)
  (Hepoch : lr_step cfg = LrStr "epoch")
  (Hsched : has_lr_scheduler cfg = false) :
  outcome (fit s)
  = match outcome (train_loop train_dataloader 0
                     (set_val_pulled 0 (set_global_step 0 s))) with
    | Raise e => Raise e
    | Ok _ => Raise AttributeError
    end
  ∧ count is_print_epoch (trace_of (fit s)) = 1%nat.
Proof.
  rewrite fit_eq.
  destruct (Z.to_nat max_epochs) as [|n] eqn:Hn; [lia|].
  rewrite epoch_loop_S.
  assert (H1 : Forall (λ e, is_print_epoch e = false)
                 (trace_of (train_loop train_dataloader 0
                              (set_val_pulled 0 (set_global_step 0 s))))).
  { apply train_loop_every.
    - intros. rewrite training_step_eq.
      repeat case_match; by repeat constructor.
    - intros. rewrite step_lr_scheduler_eq.
      repeat case_match; by repeat constructor.
    - intros. rewrite save_checkpoint_eq.
      repeat case_match; by repeat constructor.
    - intros. rewrite validate_eq.
      repeat case_match; by repeat constructor. }
  destruct (train_loop train_dataloader 0 _) as [[t1 s1] r1].
  unfold trace_of in H1. simpl in H1.
  assert (Hcount : count is_print_epoch t1 = 0%nat).
  { unfold count. induction H1 as [|e t He _ IH]; [done|].
    simpl. by rewrite He. }
  destruct r1 as [stop|e].
  - rewrite epoch_lr_scheduler_eq, Hepoch, Hsched.
    unfold count in *. simpl. split; [done|].
    by rewrite app_nil_r, Hcount.
  - unfold count in *. simpl. split; [done|]. by rewrite Hcount.
Qed.

(** X8.  With a string [lr_step] other than ["epoch"], [fit] raises
    [TypeError] on the first batch, at [global_step % lr_step] — after that
    batch's training step, optimizer update included, and after the
    increment of the counter. *)
Theorem string_lr_step_raises_type_error (s : state)
  (b : Batch) (rest : list Batch) (r : Loss * list (string * Scalar))
  (p : string)
  (Hepochs : 0 < max_epochs)
  (Htrain : train_dataloader = b :: rest)
  (Hstep : step b 0 = Returned r)
  (Hacc : accumulate_grad_batches cfg ≠ 0)
  (Hlr : lr_step cfg = LrStr p) (Hp : p ≠ "epoch") :
  fit s
  = ([Print_epoch 0; Call_step false b 0; Zero_grad; Backward (fst r);
      Clip_grad_norm; Opt_step [fst r];
      Log_dict (train_logs lr_value (snd r) s) 0],
     set_global_step 1
       (set_grad [fst r] (set_val_pulled 0 (set_global_step 0 s))),
     Raise TypeError).
Proof.
  rewrite (fit_first b rest r Hepochs Htrain Hstep s Hacc).
  rewrite step_lr_scheduler_eq, Hlr.
  apply String.eqb_neq in Hp as ->.
  reflexivity.
Qed.

(** X9.  With the step interval [lr_step = 0], [fit] raises
    [ZeroDivisionError] on the first batch in the same place. *)
Theorem zero_lr_step_raises (s : state)
  (b : Batch) (rest : list Batch) (r : Loss * list (string * Scalar))
  (Hepochs : 0 < max_epochs)
  (Htrain : train_dataloader = b :: rest)
  (Hstep : step b 0 = Returned r)
  (Hacc : accumulate_grad_batches cfg ≠ 0)
  (Hlr : lr_step cfg = LrInt 0) :
  fit s
  = ([Print_epoch 0; Call_step false b 0; Zero_grad; Backward (fst r);
      Clip_grad_norm; Opt_step [fst r];
      Log_dict (train_logs lr_value (snd r) s) 0],
     set_global_step 1
       (set_grad [fst r] (set_val_pulled 0 (set_global_step 0 s))),
     Raise (ZeroDivisionError Lr_step)).
Proof.
  rewrite (fit_first b rest r Hepochs Htrain Hstep s Hacc).
  rewrite step_lr_scheduler_eq, Hlr.
  reflexivity.
Qed.

(** X10.  In a run that returns and is not cut short by [max_steps],
    validation is keyed on the batch index within the epoch, not on the
    counter: in every epoch it runs at the batch indices [i] in
    0 .. len(train) - 1 with [i % validation_every_n_steps == 0], so always
    on the first batch of the epoch. *)
Theorem validation_by_batch_index (s : state)
  (Hok : outcome (fit s) = Ok tt)
  (Hfull : Z.of_nat (Z.to_nat max_epochs * length train_dataloader)
           ≤ max_steps) :
  validation_indices (trace_of (fit s))
  = concat (replicate (Z.to_nat max_epochs)
              (List.filter (λ i, i mod validation_every_n_steps =? 0)
                 (seqZ 0 (Z.of_nat (length train_dataloader))))).
Proof.
  rewrite fit_eq in Hok |- *.
  pose proof (epoch_loop_validated (Z.to_nat max_epochs) 0
                (set_val_pulled 0 (set_global_step 0 s))) as H.
  destruct (epoch_loop _ _ _) as [[t s'] [[]|e]]; [|discriminate Hok].
  apply H. simpl. lia.
Qed.

(** X11.  The validation batches of a [fit] call are taken from the
    validation source in order, starting over at its end: the [j]-th
    validation step (from 0) gets the batch at position
    [j mod len(val)], across epochs, in every run. *)
Theorem validation_batches_cycle (s : state) (j : nat) (b : Batch)
  (Hj : nth_error (validation_batches (trace_of (fit s))) j = Some b) :
  nth_error val_dataloader (j mod length val_dataloader)%nat = Some b.
Proof.
  destruct (fit_cycled s) as [_ H]. by apply H in Hj.
Qed.

(** X12.  Relative to the trainer's own [model.eval()] and
    [model.train()] calls, a [fit] call never trains, updates, saves or
    steps the scheduler in evaluation mode: between a [model.eval()] and the
    [model.train()] that follows it there is only the validation's call of
    [step] and its logging, and [step] is called under [no_grad] only there. *)
Theorem training_never_in_eval_mode (s : state) :
  mode_respected false (trace_of (fit s)) = true.
Proof. apply fit_mode_respected. Qed.

End Fit.
End Facts.

(** ** The claims on the concrete instance *)

(** C1, as stated, fails: with [max_steps = 0] the first batch goes through
    the whole training step, one optimizer update included, before the stop
    is tested. *)
Lemma max_steps_0_updates_once :
  demo_fit demo_epoch_cfg 1 0 1 1 [10; 11]%nat [20]%nat
  = ([Print_epoch 0; Call_step false 10%nat 0; Zero_grad; Backward 10%nat;
      Clip_grad_norm; Opt_step [10%nat];
      Log_dict [("train/loss", 10); ("train/lr", 0)] 0; Lr_scheduler_step],
     {| global_step := 1; grad := [10%nat];
        sched_steps := 1; val_pulled := 0 |},
     Ok tt)
  ∧ count is_opt_step
      (trace_of (demo_fit demo_epoch_cfg 1 0 1 1 [10; 11]%nat [20]%nat))
    ≠ 0%nat.
Proof. split; [vm_compute; reflexivity|vm_compute; discriminate]. Qed.

Lemma fit_max_steps_0_runs_one_step_witness :
  (0 = 0 ∧ 0 < 1 ∧ [10; 11]%nat = 10%nat :: [11%nat]
   ∧ demo_step 10 0 = Returned (10%nat, [("loss", 10)])
   ∧ accumulate_grad_batches demo_epoch_cfg ≠ 0)
  ∧ count is_opt_step
      (trace_of (demo_fit demo_epoch_cfg 1 0 1 1 [10; 11]%nat [20]%nat))
    = 1%nat.
Proof.
  assert (H4 : accumulate_grad_batches demo_epoch_cfg ≠ 0) by discriminate.
  split; [repeat split; (reflexivity || exact H4)|].
  pose proof (fit_max_steps_0_runs_one_step demo_step demo_lr demo_epoch_cfg
              1 0 1 1 [10; 11]%nat [20]%nat demo_state
              10%nat [11%nat] (10%nat, [("loss", 10)])
              eq_refl eq_refl eq_refl eq_refl H4) as Hthm.
  destruct Hthm as (tail & _ & _ & Hopt & _).
  exact Hopt.
Defined.



Lemma fit_halts_past_max_steps_witness :
  (trace_of (demo_fit demo_epoch_cfg 2 1 1 1 [10; 11; 12]%nat [20]%nat)
   = [Print_epoch 0; Call_step false 10%nat 0; Zero_grad; Backward 10%nat;
      Clip_grad_norm; Opt_step [10%nat];
      Log_dict [("train/loss", 10); ("train/lr", 0)] 0;
      Save_model 1;
      Model_eval; Call_step true 20%nat 0; Log_dict [("val/loss", 20)] 1;
      Model_train;
      Call_step false 11%nat 1; Zero_grad; Backward 11%nat]
     ++ Log_dict [("train/loss", 11); ("train/lr", 0)] 1
     :: [Lr_scheduler_step]
   ∧ dict_get [("train/loss", 11); ("train/lr", 0)] "train/lr" ≠ None
   ∧ 1 < 1 + 1)
  ∧ Forall (λ e : @event nat nat Z, e = Lr_scheduler_step)
      [Lr_scheduler_step].
Proof.
  assert (H1 :
    trace_of (demo_fit demo_epoch_cfg 2 1 1 1 [10; 11; 12]%nat [20]%nat)
    = [Print_epoch 0; Call_step false 10%nat 0; Zero_grad; Backward 10%nat;
       Clip_grad_norm; Opt_step [10%nat];
       Log_dict [("train/loss", 10); ("train/lr", 0)] 0;
       Save_model 1;
       Model_eval; Call_step true 20%nat 0; Log_dict [("val/loss", 20)] 1;
       Model_train;
       Call_step false 11%nat 1; Zero_grad; Backward 11%nat]
      ++ Log_dict [("train/loss", 11); ("train/lr", 0)] 1
      :: [Lr_scheduler_step]) by (vm_compute; reflexivity).
  assert (H2 : dict_get [("train/loss", 11); ("train/lr", 0)] "train/lr"
               ≠ None) by discriminate.
  assert (H3 : 1 < 1 + 1) by reflexivity.
  split; [split; [exact H1|split; [exact H2|exact H3]]|].
  exact (fit_halts_past_max_steps demo_step demo_lr demo_epoch_cfg
           2 1 1 1 [10; 11; 12]%nat [20]%nat demo_state _ _ _ _ H1 H2 H3).
Defined.

Lemma checkpoints_at_multiples_witness :
  (outcome (demo_fit (demo_plain_cfg 2) 3 100 2 5
              [10; 11; 12; 13; 14]%nat [20; 21]%nat) = Ok tt
   ∧ Z.of_nat (Z.to_nat 3 * length [10; 11; 12; 13; 14]%nat) ≤ 100)
  ∧ saved_steps
      (trace_of (demo_fit (demo_plain_cfg 2) 3 100 2 5
                   [10; 11; 12; 13; 14]%nat [20; 21]%nat))
    = [5; 10; 15].
Proof.
  assert (H1 : outcome (demo_fit (demo_plain_cfg 2) 3 100 2 5
                          [10; 11; 12; 13; 14]%nat [20; 21]%nat) = Ok tt)
    by (vm_compute; reflexivity).
  assert (H2 : Z.of_nat (Z.to_nat 3 * length [10; 11; 12; 13; 14]%nat) ≤ 100)
    by (vm_compute; discriminate).
  split; [split; [exact H1|exact H2]|].
  pose proof (checkpoints_at_multiples demo_step demo_lr (demo_plain_cfg 2)
              3 100 2 5 [10; 11; 12; 13; 14]%nat [20; 21]%nat demo_state
              H1 H2) as Hthm.
  cbv zeta in Hthm. destruct Hthm as (_ & Hsaved & _).
  rewrite Hsaved. vm_compute. reflexivity.
Defined.

(** C7, as stated, fails: the scheduler also steps after the epoch whose
    batch loop was left by the [max_steps] stop.  Here the stop comes after
    the first of two batches, so no pass over the training source was
    completed, and the scheduler has stepped once. *)
Lemma scheduler_steps_after_abandoned_epoch :
  demo_fit demo_epoch_cfg 2 0 1 1 [10; 11]%nat [20]%nat
  = ([Print_epoch 0; Call_step false 10%nat 0; Zero_grad; Backward 10%nat;
      Clip_grad_norm; Opt_step [10%nat];
      Log_dict [("train/loss", 10); ("train/lr", 0)] 0; Lr_scheduler_step],
     {| global_step := 1; grad := [10%nat];
        sched_steps := 1; val_pulled := 0 |},
     Ok tt)
  ∧ completed_epochs (length [10; 11]%nat)
      (trace_of (demo_fit demo_epoch_cfg 2 0 1 1 [10; 11]%nat [20]%nat))
    = 0%nat
  ∧ count is_lr_scheduler_step
      (trace_of (demo_fit demo_epoch_cfg 2 0 1 1 [10; 11]%nat [20]%nat))
    = 1%nat.
Proof. repeat split; vm_compute; reflexivity. Qed.

Lemma epoch_scheduler_once_per_epoch_begun_witness :
  (lr_step demo_epoch_cfg = LrStr "epoch"
   ∧ has_lr_scheduler demo_epoch_cfg = true
   ∧ outcome (demo_fit demo_epoch_cfg 3 4 1 1 [10; 11]%nat [20]%nat) = Ok tt)
  ∧ count is_lr_scheduler_step
      (trace_of (demo_fit demo_epoch_cfg 3 4 1 1 [10; 11]%nat [20]%nat))
    = 3%nat.
Proof.
  assert (H3 : outcome (demo_fit demo_epoch_cfg 3 4 1 1 [10; 11]%nat [20]%nat)
               = Ok tt) by (vm_compute; reflexivity).
  split; [repeat split; (reflexivity || exact H3)|].
  pose proof (epoch_scheduler_once_per_epoch_begun demo_step demo_lr
              demo_epoch_cfg 3 4 1 1 [10; 11]%nat [20]%nat demo_state
              eq_refl eq_refl H3) as Hthm.
  destruct Hthm as [_ Hcount].
  rewrite Hcount. vm_compute. reflexivity.
Defined.

(** C9, as stated, fails: with [max_steps = 0] the run processes a batch
    and returns although two of the three divisors are 0. *)
Lemma zero_divisors_not_reached :
  demo_fit (demo_plain_cfg 1) 1 0 0 0 [10; 11]%nat [20]%nat
  = ([Print_epoch 0; Call_step false 10%nat 0; Zero_grad; Backward 10%nat;
      Clip_grad_norm; Opt_step [10%nat];
      Log_dict [("train/loss", 10); ("train/lr", 0)] 0],
     {| global_step := 1; grad := [10%nat];
        sched_steps := 0; val_pulled := 0 |},
     Ok tt)
  ∧ ¬ (¬ zero_division
           (outcome (demo_fit (demo_plain_cfg 1) 1 0 0 0
                       [10; 11]%nat [20]%nat))
       ↔ accumulate_grad_batches (demo_plain_cfg 1) ≠ 0
         ∧ (0 : Z) ≠ 0 ∧ (0 : Z) ≠ 0).
Proof.
  split; [vm_compute; reflexivity|].
  intros [Hto _].
  destruct Hto as (_ & Hsave & _); [|by apply Hsave].
  vm_compute. by intros [].
Qed.

Lemma zero_division_iff_witness :
  (0 < 1 ∧ [10; 11]%nat = 10%nat :: [11%nat]
   ∧ demo_step 10 0 = Returned (10%nat, [("loss", 10)])
   ∧ lr_step_safe (demo_plain_cfg 1))
  ∧ (¬ zero_division
         (outcome (demo_fit (demo_plain_cfg 1) 1 5 0 3 [10; 11]%nat [20]%nat))
     ↔ accumulate_grad_batches (demo_plain_cfg 1) ≠ 0
       ∧ (1 ≤ 5 → (3 : Z) ≠ 0 ∧ (0 : Z) ≠ 0)).
Proof.
  assert (H4 : lr_step_safe (demo_plain_cfg 1)) by exact I.
  split; [repeat split; (reflexivity || exact H4)|].
  exact (zero_division_iff demo_step demo_lr (demo_plain_cfg 1)
           1 5 0 3 [10; 11]%nat [20]%nat demo_state
           10%nat [11%nat] (10%nat, [("loss", 10)])
           eq_refl eq_refl eq_refl H4).
Defined.

Lemma gradients_of_current_batch_only_witness :
  demo_step 12 2 = Returned (12%nat, [("loss", 12)])
  ∧ grad (final_state (training_step demo_step demo_lr demo_epoch_cfg
                         12%nat 2 demo_state))
    = [12%nat].
Proof.
  split; [reflexivity|].
  pose proof (gradients_of_current_batch_only demo_step demo_lr demo_epoch_cfg
              1 10 1 1 [10; 11]%nat [20]%nat demo_state demo_state
              12%nat 2 (12%nat, [("loss", 12)]) eq_refl) as Hthm.
  destruct Hthm as (_ & Hgrad & _).
  exact Hgrad.
Defined.

(** ** The further properties on the concrete instance *)

Lemma fit_run_length_witness :
  outcome (demo_fit (demo_plain_cfg 2) 3 6 2 5
             [10; 11; 12; 13; 14]%nat [20; 21]%nat) = Ok tt
  ∧ global_step (final_state (demo_fit (demo_plain_cfg 2) 3 6 2 5
                                [10; 11; 12; 13; 14]%nat [20; 21]%nat))
    = 7.
Proof.
  assert (H1 : outcome (demo_fit (demo_plain_cfg 2) 3 6 2 5
                          [10; 11; 12; 13; 14]%nat [20; 21]%nat) = Ok tt)
    by (vm_compute; reflexivity).
  split; [exact H1|].
  pose proof (fit_run_length demo_step demo_lr (demo_plain_cfg 2) 3 6 2 5
                [10; 11; 12; 13; 14]%nat [20; 21]%nat demo_state H1) as Hthm.
  rewrite Hthm. vm_compute. reflexivity.
Defined.

Lemma stepwise_scheduler_counted_witness :
  (lr_step (demo_stepwise_cfg 2) = LrInt 2 ∧ (2 : Z) ≠ 0
   ∧ has_lr_scheduler (demo_stepwise_cfg 2) = true)
  ∧ count is_lr_scheduler_step
      (trace_of (demo_fit (demo_stepwise_cfg 2) 1 3 1 1
                   [10; 11; 12; 13; 14]%nat [20; 21]%nat))
    = 2%nat.
Proof.
  assert (H2 : (2 : Z) ≠ 0) by discriminate.
  split; [split; [reflexivity|split; [exact H2|reflexivity]]|].
  pose proof (stepwise_scheduler_counted demo_step demo_lr
                (demo_stepwise_cfg 2) 1 3 1 1
                [10; 11; 12; 13; 14]%nat [20; 21]%nat demo_state 2
                eq_refl H2 eq_refl) as Hthm.
  rewrite Hthm. vm_compute. reflexivity.
Defined.

Lemma no_scheduler_never_steps_witness :
  (has_lr_scheduler (demo_plain_cfg 1) = false
   ∨ lr_step (demo_plain_cfg 1) = LrNone)
  ∧ count is_lr_scheduler_step
      (trace_of (demo_fit (demo_plain_cfg 1) 2 10 1 1
                   [10; 11]%nat [20]%nat))
    = 0%nat.
Proof.
  assert (H1 : has_lr_scheduler (demo_plain_cfg 1) = false
               ∨ lr_step (demo_plain_cfg 1) = LrNone)
    by (left; reflexivity).
  split; [exact H1|].
  exact (no_scheduler_never_steps demo_step demo_lr (demo_plain_cfg 1)
           2 10 1 1 [10; 11]%nat [20]%nat demo_state H1).
Defined.

Lemma epoch_granularity_without_scheduler_raises_witness :
  (0 < 2 ∧ lr_step (demo_string_cfg "epoch" false) = LrStr "epoch"
   ∧ has_lr_scheduler (demo_string_cfg "epoch" false) = false)
  ∧ outcome (demo_fit (demo_string_cfg "epoch" false) 2 10 1 1
               [10; 11]%nat [20]%nat)
    = Raise AttributeError.
Proof.
  split; [repeat split; reflexivity|].
  pose proof (epoch_granularity_without_scheduler_raises demo_step demo_lr
                (demo_string_cfg "epoch" false) 2 10 1 1
                [10; 11]%nat [20]%nat demo_state
                eq_refl eq_refl eq_refl) as Hthm.
  destruct Hthm as [Hout _]. rewrite Hout. vm_compute. reflexivity.
Defined.

Lemma string_lr_step_raises_type_error_witness :
  (0 < 1 ∧ [10; 11]%nat = 10%nat :: [11%nat]
   ∧ demo_step 10 0 = Returned (10%nat, [("loss", 10)])
   ∧ accumulate_grad_batches (demo_string_cfg "step" true) ≠ 0
   ∧ lr_step (demo_string_cfg "step" true) = LrStr "step"
   ∧ "step" ≠ "epoch")
  ∧ outcome (demo_fit (demo_string_cfg "step" true) 1 10 1 1
               [10; 11]%nat [20]%nat)
    = Raise TypeError.
Proof.
  assert (H4 : accumulate_grad_batches (demo_string_cfg "step" true) ≠ 0)
    by discriminate.
  assert (H6 : "step" ≠ "epoch") by discriminate.
  split; [repeat split; (reflexivity || exact H4 || exact H6)|].
  pose proof (string_lr_step_raises_type_error demo_step demo_lr
                (demo_string_cfg "step" true) 1 10 1 1
                [10; 11]%nat [20]%nat demo_state
                10%nat [11%nat] (10%nat, [("loss", 10)]) "step"
                eq_refl eq_refl eq_refl H4 eq_refl H6) as Hthm.
  rewrite Hthm. reflexivity.
Defined.

Lemma zero_lr_step_raises_witness :
  (0 < 1 ∧ [10; 11]%nat = 10%nat :: [11%nat]
   ∧ demo_step 10 0 = Returned (10%nat, [("loss", 10)])
   ∧ accumulate_grad_batches (demo_stepwise_cfg 0) ≠ 0
   ∧ lr_step (demo_stepwise_cfg 0) = LrInt 0)
  ∧ outcome (demo_fit (demo_stepwise_cfg 0) 1 10 1 1
               [10; 11]%nat [20]%nat)
    = Raise (ZeroDivisionError Lr_step).
Proof.
  assert (H4 : accumulate_grad_batches (demo_stepwise_cfg 0) ≠ 0)
    by discriminate.
  split; [repeat split; (reflexivity || exact H4)|].
  pose proof (zero_lr_step_raises demo_step demo_lr
                (demo_stepwise_cfg 0) 1 10 1 1
                [10; 11]%nat [20]%nat demo_state
                10%nat [11%nat] (10%nat, [("loss", 10)])
                eq_refl eq_refl eq_refl H4 eq_refl) as Hthm.
  rewrite Hthm. reflexivity.
Defined.

Lemma validation_by_batch_index_witness :
  (outcome (demo_fit (demo_plain_cfg 2) 3 100 2 5
              [10; 11; 12; 13; 14]%nat [20; 21]%nat) = Ok tt
   ∧ Z.of_nat (Z.to_nat 3 * length [10; 11; 12; 13; 14]%nat) ≤ 100)
  ∧ validation_indices
      (trace_of (demo_fit (demo_plain_cfg 2) 3 100 2 5
                   [10; 11; 12; 13; 14]%nat [20; 21]%nat))
    = [0; 2; 4; 0; 2; 4; 0; 2; 4].
Proof.
  assert (H1 : outcome (demo_fit (demo_plain_cfg 2) 3 100 2 5
                          [10; 11; 12; 13; 14]%nat [20; 21]%nat) = Ok tt)
    by (vm_compute; reflexivity).
  assert (H2 : Z.of_nat (Z.to_nat 3 * length [10; 11; 12; 13; 14]%nat) ≤ 100)
    by (vm_compute; discriminate).
  split; [split; [exact H1|exact H2]|].
  pose proof (validation_by_batch_index demo_step demo_lr (demo_plain_cfg 2)
                3 100 2 5 [10; 11; 12; 13; 14]%nat [20; 21]%nat demo_state
                H1 H2) as Hthm.
  rewrite Hthm. vm_compute. reflexivity.
Defined.

Lemma validation_batches_cycle_witness :
  nth_error
    (validation_batches
       (trace_of (demo_fit (demo_plain_cfg 2) 3 100 2 5
                    [10; 11; 12; 13; 14]%nat [20; 21]%nat))) 2
  = Some 20%nat
  ∧ nth_error [20; 21]%nat (2 mod length [20; 21]%nat)%nat = Some 20%nat.
Proof.
  assert (H1 :
    nth_error
      (validation_batches
         (trace_of (demo_fit (demo_plain_cfg 2) 3 100 2 5
                      [10; 11; 12; 13; 14]%nat [20; 21]%nat))) 2
    = Some 20%nat) by (vm_compute; reflexivity).
  split; [exact H1|].
  exact (validation_batches_cycle demo_step demo_lr (demo_plain_cfg 2)
           3 100 2 5 [10; 11; 12; 13; 14]%nat [20; 21]%nat demo_state
           2%nat 20%nat H1).
Defined.

End TrainerSpec.
